(** * Victory36 prediction pipeline controller

    A shallow embedding of [src/prediction-pipeline-controller/main.py]
    (class [PredictionPipelineController] and the routes around it) and of
    the class [DrLucyFlightMemory] and its [/predict] route from
    [src/dr_lucy_service_fixed.py], together with the properties the
    specification states about them and further properties of the code.

    Conventions of the embedding.
    - Python objects that come out of [json.loads] / [response.json()] are
      the inductive [value]; a [dict] is an association list in insertion
      order (its keys are pairwise distinct in Python, see [wf_value]).
    - A Python [float] is a binary64 number, the kernel's primitive
      [float]; a Python [int] is a [Z].  Arithmetic follows Python's
      numeric tower: an [int] that meets a [float] is converted first
      (rounding to nearest, ties to even) and the conversion raises
      [OverflowError] when the [int] is too large; comparisons between an
      [int] and a [float] are exact.
    - Clock readings ([time.time()]) are idealised as rationals: only
      their differences are compared with the TTL.
    - A Python exception is the [Raise] branch of [result].
    - The mutable [self.prediction_cache] is a [gmap] threaded explicitly.
    - The outside world (clock readings, HTTP replies, the Claude reply) is
      an explicit argument, and every outgoing call is logged as an [event].
    - Library functions that are not part of the repository
      ([json.loads], [hashlib.md5], the scalar encoders of [json.dumps],
      the operations of [str] that work on code points) are the fields of
      the class [PyRuntime]; every definition and theorem that needs them
      holds for any instance.
    - A [string] stands for a Python [str] in its UTF-8 encoding.  A
      search for an ASCII text finds the same place in the bytes and in
      the code points, so [find] and the slices between the places it
      finds work on the bytes; whatever counts characters is asked from
      the runtime.
    - The fields of [PredictionRequest] are the JSON values the route
      passes to the dataclass, which checks none of its annotations. *)

From Stdlib Require Import ZArith QArith Floats String Ascii List Lia Lqa Permutation.
From stdpp Require Import base option list strings pretty gmap.

Local Open Scope string_scope.
Local Open Scope Q_scope.

#[local] Set Warnings "-inexact-float".

(** ** Python values and exceptions *)

#[local] Set Warnings "-register-all".

Inductive value : Type :=
| VNone
| VBool (b : bool)
| VInt (z : Z)
| VFloat (f : float)
| VStr (s : string)
| VList (l : list value)
| VDict (d : list (string * value)).

Inductive exn : Type :=
| TypeError
| AttributeError
| KeyError
| OverflowError
| JSONDecodeError
| TimeoutError
| OtherError (detail : string).

Inductive result (A : Type) : Type :=
| Ok (a : A)
| Raise (e : exn).
Arguments Ok {A} a.
Arguments Raise {A} e.

(** [result] is the exception monad; [x ← r; k] is stdpp's bind notation. *)
#[global] Instance result_ret : MRet result := @Ok.
#[global] Instance result_bind : MBind result := λ A B k r,
  match r with
  | Ok a => k a
  | Raise e => Raise e
  end.

(** ** The Python runtime the services rely on

    These functions belong to the Python standard library, not to the
    repository: [json.loads], [hashlib.md5(...).hexdigest()], [repr] of a
    finite float, the string encoder of [json.dumps], [repr] of a string,
    [str.lower], the slice [s[:n]] and [len(s)] on the code points of a
    string, and [str(e)] for an exception.
    [json_loads s = Raise JSONDecodeError] says that [s] is not JSON. *)

Class PyRuntime : Type := {
  json_loads : string → result value;
  md5_hexdigest : string → string;
  float_repr : float → string;
  encode_basestring_ascii : string → string;
  str_repr : string → string;
  lower : string → string;
  text_prefix : nat → string → string;
  text_length : string → nat;
  exception_text : exn → string;
}.

Module Py.

(** [bool(v)]: the truth value Python's [if v:] tests. *)
Definition truthy (v : value) : bool :=
  match v with
  | VNone => false
  | VBool b => b
  | VInt z => negb (z =? 0)%Z
  | VFloat f => negb (f =? 0)%float
  | VStr s => negb (String.eqb s "")
  | VList l => match l with [] => false | _ => true end
  | VDict d => match d with [] => false | _ => true end
  end.

(** Lookup of a key in a dict (keys are unique, so the first hit is the
    only one). *)
Fixpoint dict_get (d : list (string * value)) (k : string) : option value :=
  match d with
  | [] => None
  | (k', v) :: d' => if String.eqb k' k then Some v else dict_get d' k
  end.

(** The numeric tower: [bool] (an [int]), [int] and [float] take part in
    arithmetic, nothing else does. *)
Inductive number : Type :=
| NInt (z : Z)
| NFloat (f : float).

Definition to_number (v : value) : option number :=
  match v with
  | VBool b => Some (NInt (if b then 1 else 0))
  | VInt z => Some (NInt z)
  | VFloat f => Some (NFloat f)
  | _ => None
  end.

(** [float(z)]: the nearest binary64 number, ties to even; an [int]
    that rounds beyond the largest one is refused. *)
Definition float_of_int (z : Z) : result float :=
  match SpecFloat.binary_normalize prec emax z 0 false with
  | S754_infinity _ => Raise OverflowError
  | x => Ok (SF2Prim x)
  end.

Definition to_float (n : number) : result float :=
  match n with
  | NInt z => float_of_int z
  | NFloat f => Ok f
  end.

(** How a float compares with an int: Python compares the two exactly;
    [None] when the float is a NaN. *)
Definition float_compare_int (f : float) (z : Z) : option comparison :=
  match Prim2SF f with
  | S754_nan => None
  | S754_infinity negative => Some (if negative then Lt else Gt)
  | S754_zero _ => Some (0 ?= z)%Z
  | S754_finite negative m e =>
      let n := if negative then Zneg m else Zpos m in
      Some (if (0 <=? e)%Z then (n * 2 ^ e ?= z)%Z else (n ?= z * 2 ^ (- e))%Z)
  end.

(** ["sub" in s] for strings. *)
Definition is_substring (sub s : string) : bool :=
  match String.index 0 sub s with
  | Some _ => true
  | None => false
  end.

Definition is_str (s : string) (v : value) : bool :=
  match v with
  | VStr s' => String.eqb s' s
  | _ => false
  end.

(** [k in v] for a string [k]: key membership for a dict, element
    membership for a list, substring test for a string; a [TypeError]
    for objects that are not iterable. *)
Definition contains (k : string) (v : value) : result bool :=
  match v with
  | VDict d => Ok (match dict_get d k with Some _ => true | None => false end)
  | VList l => Ok (existsb (is_str k) l)
  | VStr s => Ok (is_substring k s)
  | _ => Raise TypeError
  end.

(** [v[k]] for a string [k]. *)
Definition getitem (v : value) (k : string) : result value :=
  match v with
  | VDict d => match dict_get d k with Some x => Ok x | None => Raise KeyError end
  | _ => Raise TypeError
  end.

(** [v.get(k, default)]: only a dict has the method. *)
Definition get (v : value) (k : string) (default : value) : result value :=
  match v with
  | VDict d => Ok (match dict_get d k with Some x => x | None => default end)
  | _ => Raise AttributeError
  end.

(** [v * f] for a float [f]: always a float. *)
Definition mul_float (v : value) (f : float) : result float :=
  match to_number v with
  | Some n => x ← to_float n; Ok (x * f)%float
  | None => Raise TypeError
  end.

(** [a - b]: an int when both are ints, a float otherwise. *)
Definition sub (a b : value) : result number :=
  match to_number a, to_number b with
  | Some (NInt x), Some (NInt y) => Ok (NInt (x - y))
  | Some x, Some y => x ← to_float x; y ← to_float y; Ok (NFloat (x - y)%float)
  | _, _ => Raise TypeError
  end.

(** [abs(n)]. *)
Definition abs (n : number) : number :=
  match n with
  | NInt z => NInt (Z.abs z)
  | NFloat f => NFloat (PrimFloat.abs f)
  end.

(** [f - n] for a float [f]. *)
Definition float_sub (f : float) (n : number) : result float :=
  x ← to_float n; Ok (f - x)%float.

(** [v < z] for an int [z], and [v > f] for a float [f]. *)
Definition lt_int (v : value) (z : Z) : result bool :=
  match to_number v with
  | Some (NInt x) => Ok (x <? z)%Z
  | Some (NFloat f) =>
      Ok match float_compare_int f z with Some Lt => true | _ => false end
  | None => Raise TypeError
  end.

Definition gt_float (v : value) (f : float) : result bool :=
  match to_number v with
  | Some (NInt x) =>
      Ok match float_compare_int f x with Some Lt => true | _ => false end
  | Some (NFloat x) => Ok (f <? x)%float
  | None => Raise TypeError
  end.

(** [min(a, b)] returns [a] unless [b < a]; [max(a, b)] returns [a]
    unless [b > a]. *)
Definition min (a b : float) : float := if (b <? a)%float then b else a.
Definition max (a b : float) : float := if (a <? b)%float then b else a.

(** [min(z, v)] for an int [z]. *)
Definition min_int (z : Z) (v : value) : result value :=
  smaller ← lt_int v z;
  Ok (if smaller : bool then v else VInt z).

(** [", ".join(parts)]. *)
Fixpoint join (sep : string) (parts : list string) : string :=
  match parts with
  | [] => ""
  | [p] => p
  | p :: ps => p +:+ sep +:+ join sep ps
  end.

Definition int_repr (z : Z) : string :=
  match z with
  | Z0 => "0"
  | Zpos p => pretty (Npos p)
  | Zneg p => "-" +:+ pretty (Npos p)
  end.

Section Repr.
Context `{PyRuntime}.

(** [repr(f)] for a float. *)
Definition repr_float (f : float) : string :=
  if is_nan f then "nan"
  else if is_infinity f then (if (f <? 0)%float then "-inf" else "inf")
  else float_repr f.

(** [repr(v)] and [str(v)]. *)
Fixpoint repr (v : value) : string :=
  match v with
  | VNone => "None"
  | VBool b => if b then "True" else "False"
  | VInt z => int_repr z
  | VFloat f => repr_float f
  | VStr s => str_repr s
  | VList l => "[" +:+ join ", " (map repr l) +:+ "]"
  | VDict d =>
      "{" +:+
      join ", " (map (λ kv, str_repr (fst kv) +:+ ": " +:+ repr (snd kv)) d)
      +:+ "}"
  end.

Definition str (v : value) : string :=
  match v with
  | VStr s => s
  | _ => repr v
  end.
End Repr.

End Py.

(** ** Score aggregation ([main.py], lines 255-289) *)

Definition _calculate_coordination_score
    (time_presser time_liner claude4 : value) : result float :=
  let score := 0.0%float in
  let score := if Py.truthy time_presser then (score + 0.3)%float else score in
  let score := if Py.truthy time_liner then (score + 0.3)%float else score in
  let score := if Py.truthy claude4 then (score + 0.2)%float else score in
  score ← (if Py.truthy claude4 then
             has_confidence ← Py.contains "confidence" claude4;
             if has_confidence : bool then
               confidence ← Py.getitem claude4 "confidence";
               bonus ← Py.mul_float confidence 0.2;
               Ok (score + bonus)%float
             else Ok score
           else Ok score);
  Ok (Py.min score 1.0).

Definition _calculate_temporal_coherence
    (time_presser time_liner : value) : result float :=
  if negb (Py.truthy time_presser) || negb (Py.truthy time_liner) then Ok 0.5%float
  else
    tp_prediction ← Py.get time_presser "prediction" (VDict []);
    tp_confidence ← Py.get tp_prediction "confidence" (VFloat 0.5);
    tl_prediction ← Py.get time_liner "prediction" (VDict []);
    tl_confidence ← Py.get tl_prediction "confidence" (VFloat 0.5);
    difference ← Py.sub tp_confidence tl_confidence;
    let confidence_diff := Py.abs difference in
    coherence ← Py.float_sub 1.0 confidence_diff;
    Ok (Py.max 0.0 (Py.min 1.0 coherence)).

(** ** [json.dumps(obj, sort_keys=True)] *)

Module Json.

(** [sorted(dct.items())]: a stable sort of the items; with pairwise
    distinct keys only the keys are ever compared. *)
Fixpoint insert_item {A : Type} (x : string * A) (l : list (string * A))
    : list (string * A) :=
  match l with
  | [] => [x]
  | y :: l' => if String.leb (fst x) (fst y) then x :: y :: l'
               else y :: insert_item x l'
  end.

Definition sorted_items {A : Type} (d : list (string * A)) : list (string * A) :=
  foldr insert_item [] d.

Section Dumps.
Context `{PyRuntime}.

(** The encoder's [floatstr]: [repr] for a finite float, the JavaScript
    names otherwise. *)
Definition floatstr (f : float) : string :=
  if is_nan f then "NaN"
  else if is_infinity f then (if (f <? 0)%float then "-Infinity" else "Infinity")
  else float_repr f.

(** The encoder sorts the items and then encodes each value; sorting
    looks at keys only, so the values are encoded first here, which
    keeps the recursion structural ([sorted_items_encoded] below). *)
Fixpoint dumps (v : value) : string :=
  match v with
  | VNone => "null"
  | VBool b => if b then "true" else "false"
  | VInt z => Py.int_repr z
  | VFloat f => floatstr f
  | VStr s => encode_basestring_ascii s
  | VList l => "[" +:+ Py.join ", " (map dumps l) +:+ "]"
  | VDict d =>
      "{" +:+
      Py.join ", "
        (map (λ kv, encode_basestring_ascii (fst kv) +:+ ": " +:+ snd kv)
           (sorted_items (map (λ kv, (fst kv, dumps (snd kv))) d)))
      +:+ "}"
  end.
End Dumps.

End Json.

(** ** Request, response and controller state ([main.py], lines 36-94)

    A dataclass does not check its annotations: the route fills the
    fields of a request with whatever JSON values the body holds. *)

Record PredictionRequest : Type := {
  session_id : value;
  mission_context : value;
  time_presser_priority : value;
  time_liner_priority : value;
  claude4_integration : value;
  temporal_acceleration : value;
  strategic_horizon : value;
}.

Record PipelineResponse : Type := {
  response_session_id : value;
  timestamp : string;
  time_presser_prediction : value;
  time_liner_prediction : value;
  claude4_analysis : value;
  coordination_score : float;
  temporal_coherence : float;
  pipeline_status : string;
}.

(** The configuration read in [__init__].  [claude4_client] records
    whether a client object was built ([None] otherwise). *)
Record PredictionPipelineController : Type := {
  dr_lucy_endpoint : option string;
  dream_commander_endpoint : option string;
  claude4_enabled : bool;
  claude4_client : bool;
  claude4_model : string;
  time_presser_factor : float;
  time_liner_horizon : Z;
  temporal_coherence_threshold : float;
  prediction_timeout : Z;
  max_concurrent : Z;
  cache_ttl : Z;
}.

(** [self.prediction_cache]: cache key to (response, insertion time). *)
Abbreviation prediction_cache := (gmap string (PipelineResponse * Q)).

(** ** The outside world *)

(** What one [session.post(...)] does: it answers with a status and a
    body ([response.json()] may itself raise), or it raises (connection
    failure, [asyncio.TimeoutError] after [prediction_timeout], ...). *)
Inductive http_outcome : Type :=
| Replied (status : Z) (json_body : result value)
| Failed (e : exn).

(** What [claude4_client.messages.create(...)] followed by
    [message.content[0].text] does. *)
Inductive claude_outcome : Type :=
| ClaudeText (text : string)
| ClaudeRaises (e : exn).

Record world : Type := {
  utc_now : string;
  lookup_time : Q;
  dr_lucy_reply : http_outcome;
  dream_commander_reply : http_outcome;
  claude_reply : claude_outcome;
  claude_utc_now : string;
  store_time : Q;
}.

(** Calls that leave the process. *)
Inductive event : Type :=
| HttpPost (url : string) (json : value)
| MessagesCreate (model : string).

(** [try: body except Exception: handler]. *)
Definition catch {A : Type} (body : result A) (handler : exn → result A) : result A :=
  match body with
  | Ok a => Ok a
  | Raise e => handler e
  end.

(** [try: body except json.JSONDecodeError: handler]. *)
Definition catch_json_decode {A : Type} (body : result A) (handler : result A) : result A :=
  match body with
  | Raise JSONDecodeError => handler
  | other => other
  end.

(** [if not endpoint]: [None] and the empty string are both unset. *)
Definition configured (endpoint : option string) : option string :=
  match endpoint with
  | Some url => if String.eqb url "" then None else Some url
  | None => None
  end.

(** [s.find(sub, start)] for an ASCII [sub] and a place [start >= 0]. *)
Definition find (s sub : string) (start : Z) : Z :=
  match String.index (Z.to_nat start) sub s with
  | Some i => Z.of_nat i
  | None => -1
  end.

(** [s[start:stop]] for a place [start >= 0]: up to the place [stop] when
    it is one, and without the last [-stop] characters of the string when
    [stop] is negative. *)
Definition slice `{PyRuntime} (s : string) (start stop : Z) : string :=
  let n := Z.of_nat (String.length s) in
  let start := Z.min start n in
  if (stop <? 0)%Z then
    let rest := String.substring (Z.to_nat start) (Z.to_nat (n - start)) s in
    text_prefix (Z.to_nat (Z.of_nat (text_length rest) + stop)) rest
  else
    let stop := Z.min stop n in
    if (start <? stop)%Z
    then String.substring (Z.to_nat start) (Z.to_nat (stop - start)) s
    else "".

(** ** The controller ([main.py], lines 96-370) *)

Section Controller.
Context `{PyRuntime}.
Variable self : PredictionPipelineController.

Definition _cache_key (session_id : value) (context_hash : string) : string :=
  "prediction:" +:+ Py.str session_id +:+ ":" +:+ context_hash.

Definition _context_hash (context : value) : string :=
  let context_str := Json.dumps context in
  md5_hexdigest context_str.

Definition _call_dr_lucy (prediction_request : PredictionRequest)
    (reply : http_outcome) : result value * list event :=
  match configured (dr_lucy_endpoint self) with
  | None => (Ok VNone, [])
  | Some endpoint =>
      let time_presser_request := VDict [
        ("session_id", session_id prediction_request);
        ("context", mission_context prediction_request);
        ("acceleration_factor", VFloat (time_presser_factor self));
        ("priority", time_presser_priority prediction_request);
        ("temporal_acceleration", temporal_acceleration prediction_request)
      ] in
      (catch
         match reply with
         | Replied status json_body =>
             if (status =? 200)%Z then json_body else Ok VNone
         | Failed e => Raise e
         end
         (λ _, Ok VNone),
       [HttpPost (endpoint +:+ "/predict") time_presser_request])
  end.

(** Building the request is part of the [try]: when [min] refuses to
    compare the horizon, nothing is posted. *)
Definition _call_dream_commander (prediction_request : PredictionRequest)
    (reply : http_outcome) : result value * list event :=
  match configured (dream_commander_endpoint self) with
  | None => (Ok VNone, [])
  | Some endpoint =>
      match
        Py.min_int (time_liner_horizon self) (strategic_horizon prediction_request)
      with
      | Raise _ => (Ok VNone, [])
      | Ok horizon =>
          let time_liner_request := VDict [
            ("session_id", session_id prediction_request);
            ("context", mission_context prediction_request);
            ("strategic_horizon", horizon);
            ("priority", time_liner_priority prediction_request)
          ] in
          (catch
             match reply with
             | Replied status json_body =>
                 if (status =? 200)%Z then json_body else Ok VNone
             | Failed e => Raise e
             end
             (λ _, Ok VNone),
           [HttpPost (endpoint +:+ "/predict") time_liner_request])
      end
  end.

Definition _claude4_analysis (prediction_request : PredictionRequest)
    (time_presser_result time_liner_result : value)
    (reply : claude_outcome) (now : string) : result value * list event :=
  if negb (claude4_enabled self) || negb (claude4_client self) then (Ok VNone, [])
  else
    (catch
       (claude_response ←
          match reply with
          | ClaudeText text => Ok text
          | ClaudeRaises e => Raise e
          end;
        catch_json_decode
          (if Py.is_substring "```json" claude_response then
             let json_start := (find claude_response "```json" 0 + 7)%Z in
             let json_end := find claude_response "```" json_start in
             json_loads (slice claude_response json_start json_end)
           else json_loads claude_response)
          (Ok (VDict [("analysis_text", VStr claude_response);
                      ("confidence", VFloat 0.8);
                      ("timestamp", VStr now)])))
       (λ _, Ok VNone),
     [MessagesCreate (claude4_model self)]).

(** The first [with self.coordination_lock] block (lines 302-307): the
    cached response when the key is present and still fresh. *)
Definition cache_lookup (now : Q) (cache_key : string)
    (cache : prediction_cache) : option PipelineResponse :=
  match cache !! cache_key with
  | Some (cached_result, cache_time) =>
      if QMicromega.Qlt_bool (now - cache_time) (inject_Z (cache_ttl self))
      then Some cached_result
      else None
  | None => None
  end.

(** [PipelineResponse(session_id=..., timestamp=..., pipeline_status="error")]:
    the other fields take the dataclass defaults. *)
Definition error_response (session_id : value) (timestamp : string)
    : PipelineResponse :=
  {| response_session_id := session_id;
     timestamp := timestamp;
     time_presser_prediction := VNone;
     time_liner_prediction := VNone;
     claude4_analysis := VNone;
     coordination_score := 0.0;
     temporal_coherence := 0.0;
     pipeline_status := "error" |}.

(** [asyncio.gather] with [return_exceptions=True] hands a task's
    exception back as its result; lines 319-325 turn it into [None]. *)
Definition gathered (task_result : result value) : value :=
  match task_result with
  | Ok v => v
  | Raise _ => VNone
  end.

(** The [try] body from the fan-out to the construction of the response
    (lines 310-353): everything between the two locked blocks. *)
Definition compose_response (w : world) (prediction_request : PredictionRequest)
    : result PipelineResponse * list event :=
  let '(lucy_task, lucy_events) :=
    _call_dr_lucy prediction_request (dr_lucy_reply w) in
  let '(dream_task, dream_events) :=
    _call_dream_commander prediction_request (dream_commander_reply w) in
  let time_presser_result := gathered lucy_task in
  let time_liner_result := gathered dream_task in
  let '(claude4_call, claude_events) :=
    if Py.truthy (claude4_integration prediction_request)
    then _claude4_analysis prediction_request time_presser_result time_liner_result
           (claude_reply w) (claude_utc_now w)
    else (Ok VNone, []) in
  (claude4_result ← claude4_call;
   coordination_score ←
     _calculate_coordination_score time_presser_result time_liner_result claude4_result;
   temporal_coherence ←
     _calculate_temporal_coherence time_presser_result time_liner_result;
   Ok {| response_session_id := session_id prediction_request;
         timestamp := utc_now w;
         time_presser_prediction := time_presser_result;
         time_liner_prediction := time_liner_result;
         claude4_analysis := claude4_result;
         coordination_score := coordination_score;
         temporal_coherence := temporal_coherence;
         pipeline_status :=
           if Py.truthy time_presser_result || Py.truthy time_liner_result
           then "completed" else "failed" |},
   (lucy_events ++ dream_events ++ claude_events)%list).

(** The second locked block (lines 355-357) on the normal path, the
    [except] handler (lines 364-370) on the exceptional one. *)
Definition store_or_recover (w : world) (prediction_request : PredictionRequest)
    (composed : result PipelineResponse) (cache : prediction_cache)
    : result (PipelineResponse * prediction_cache) :=
  let cache_key :=
    _cache_key (session_id prediction_request)
      (_context_hash (mission_context prediction_request)) in
  catch
    (response ← composed;
     Ok (response, <[cache_key := (response, store_time w)]> cache))
    (λ _, Ok (error_response (session_id prediction_request) (utc_now w), cache)).

(** [coordinate_predictions] run without interruption: the response (or
    the exception it lets escape), the cache afterwards and the calls
    made. *)
Definition coordinate_predictions (w : world) (prediction_request : PredictionRequest)
    (cache : prediction_cache)
    : result (PipelineResponse * prediction_cache) * list event :=
  let session_id := session_id prediction_request in
  let context_hash := _context_hash (mission_context prediction_request) in
  let cache_key := _cache_key session_id context_hash in
  match cache_lookup (lookup_time w) cache_key cache with
  | Some cached_result => (Ok (cached_result, cache), [])
  | None =>
      let '(composed, events) := compose_response w prediction_request in
      (store_or_recover w prediction_request composed cache, events)
  end.

(** *** Concurrent callers

    Each request is served on its own thread; the only shared state is
    the cache, touched inside the two locked blocks.  A caller is
    therefore at one of four points, and one scheduling step moves one
    caller across one block. *)
Inductive caller_state : Type :=
| AtLookup
| AtFanOut
| AtStore (composed : result PipelineResponse)
| Returned (outcome : result PipelineResponse).

Record caller : Type := {
  caller_request : PredictionRequest;
  caller_world : world;
  caller_at : caller_state;
}.

(** The shared cache, the number of fan-outs started so far, the calls
    made so far, and the callers. *)
Record system : Type := {
  shared_cache : prediction_cache;
  fan_outs : nat;
  trace : list event;
  callers : list caller;
}.




Definition arrive (w : world) (request : PredictionRequest) : caller :=
  {| caller_request := request; caller_world := w; caller_at := AtLookup |}.

End Controller.

(** ** Input normalisation ([dr_lucy_service_fixed.py], lines 35-56) *)

Module DrLucyFlightMemory.
Section Methods.
Context `{PyRuntime}.

Definition normalize_input (data : value) : result value :=
  catch
    match data with
    | VDict _ => Ok data
    | VStr s =>
        catch_json_decode (json_loads s) (Ok (VDict [("scenario", data)]))
    | _ => Ok (VDict [("scenario", VStr (Py.str data))])
    end
    (λ _, Ok (VDict [("scenario", VStr "unknown")])).
End Methods.
End DrLucyFlightMemory.

(** ** The specification's formulas

    These definitions follow the words of the specification (sections 3
    and 4.5), not the code; the theorems compare the code with them.
    Sums are taken from left to right, starting from 0. *)

Module Spec.

Inductive status : Type := Success | Error | Timeout.

(** [success_i = 1 if status == Success else 0]. *)
Definition success (s : status) : float :=
  match s with
  | Success => 1
  | _ => 0
  end.

(** [Σ(weight_i × success_i)]. *)
Definition coordination_score (weights : list float) (statuses : list status) : float :=
  foldl (λ sum ws, sum + fst ws * success (snd ws))%float 0%float
    (zip weights statuses).

Definition total (weights : list float) : float :=
  foldl PrimFloat.add 0%float weights.

(** Uniform weights [1/N], and a supplied weight map renormalised to
    sum to 1. *)
Definition uniform (n : nat) : list float :=
  repeat (1 / SF2Prim (SpecFloat.binary_normalize prec emax (Z.of_nat n) 0 false))%float n.
Definition renormalized (weights : list float) : list float :=
  map (λ w, w / total weights)%float weights.

End Spec.

(** ** Semantic equality of JSON values

    Two values are the same JSON document when they agree up to the order
    in which the items of each dict were inserted. *)

Inductive same_value : value → value → Prop :=
| same_none : same_value VNone VNone
| same_bool b : same_value (VBool b) (VBool b)
| same_int z : same_value (VInt z) (VInt z)
| same_float f : same_value (VFloat f) (VFloat f)
| same_str s : same_value (VStr s) (VStr s)
| same_list l1 l2 :
    Forall2 same_value l1 l2 → same_value (VList l1) (VList l2)
| same_dict d1 d1' d2 :
    d1 ≡ₚ d1' →
    Forall2 (λ a b, fst a = fst b ∧ same_value (snd a) (snd b)) d1' d2 →
    same_value (VDict d1) (VDict d2).

(** A Python dict holds each key once, at every depth. *)
Inductive wf_value : value → Prop :=
| wf_none : wf_value VNone
| wf_bool b : wf_value (VBool b)
| wf_int z : wf_value (VInt z)
| wf_float f : wf_value (VFloat f)
| wf_str s : wf_value (VStr s)
| wf_list l : Forall wf_value l → wf_value (VList l)
| wf_dict d :
    NoDup (map fst d) → Forall (λ kv, wf_value (snd kv)) d → wf_value (VDict d).

(** Structural induction on values that reaches inside lists and dicts. *)
Section ValueInduction.
Variable P : value → Prop.
Hypothesis P_none : P VNone.
Hypothesis P_bool : ∀ b, P (VBool b).
Hypothesis P_int : ∀ z, P (VInt z).
Hypothesis P_float : ∀ f, P (VFloat f).
Hypothesis P_str : ∀ s, P (VStr s).
Hypothesis P_list : ∀ l, Forall P l → P (VList l).
Hypothesis P_dict : ∀ d, Forall (λ kv, P (snd kv)) d → P (VDict d).

Fixpoint value_nested_ind (v : value) : P v :=
  match v with
  | VNone => P_none
  | VBool b => P_bool b
  | VInt z => P_int z
  | VFloat f => P_float f
  | VStr s => P_str s
  | VList l =>
      P_list l
        ((fix items (l : list value) : Forall P l :=
            match l with
            | [] => List.Forall_nil P
            | x :: l' => @List.Forall_cons _ P x l' (value_nested_ind x) (items l')
            end) l)
  | VDict d =>
      P_dict d
        ((fix items (d : list (string * value)) : Forall (λ kv, P (snd kv)) d :=
            match d with
            | [] => List.Forall_nil (λ kv, P (snd kv))
            | (k, x) :: d' =>
                @List.Forall_cons _ (λ kv, P (snd kv)) (k, x) d'
                  (value_nested_ind x) (items d')
            end) d)
  end.
End ValueInduction.

(** ** Concrete configurations used to run the model *)

Module Sample.

Definition quote_with (q : ascii) (s : string) : string :=
  String q (s +:+ String q "").

Definition lower_ascii (c : ascii) : ascii :=
  let n := nat_of_ascii c in
  if ((65 <=? n) && (n <=? 90))%nat then ascii_of_nat (n + 32) else c.

Fixpoint lower_string (s : string) : string :=
  match s with
  | EmptyString => EmptyString
  | String c s' => String (lower_ascii c) (lower_string s')
  end.

Definition exception_name (e : exn) : string :=
  match e with
  | TypeError => "TypeError"
  | AttributeError => "AttributeError"
  | KeyError => "KeyError"
  | OverflowError => "OverflowError"
  | JSONDecodeError => "JSONDecodeError"
  | TimeoutError => "TimeoutError"
  | OtherError detail => detail
  end.

(** A runtime for running the model on plain inputs: every text is
    rejected by [json_loads], the digest is the text itself, strings are
    quoted without escapes and the text operations are the ones of ASCII
    (exact for the plain ASCII strings used below).  The examples never
    depend on the choice. *)
Definition runtime : PyRuntime :=
  {| json_loads := λ _, Raise JSONDecodeError;
     md5_hexdigest := λ s, s;
     float_repr := λ _, "0.0";
     encode_basestring_ascii := quote_with "034";
     str_repr := quote_with "'";
     lower := lower_string;
     text_prefix := λ n s, String.substring 0 n s;
     text_length := String.length;
     exception_text := exception_name |}.

(** The controller with the defaults of [__init__] and both endpoints
    and the Claude client configured. *)
Definition controller : PredictionPipelineController :=
  {| dr_lucy_endpoint := Some "http://dr-lucy";
     dream_commander_endpoint := Some "http://dream-commander";
     claude4_enabled := true;
     claude4_client := true;
     claude4_model := "claude-3-5-sonnet-20241022";
     time_presser_factor := 10.0;
     time_liner_horizon := 90;
     temporal_coherence_threshold := 0.85;
     prediction_timeout := 30;
     max_concurrent := 10;
     cache_ttl := 300 |}.

Definition request : PredictionRequest :=
  {| session_id := VStr "s1";
     mission_context := VDict [("mission", VStr "alpha"); ("phase", VInt 2)];
     time_presser_priority := VFloat 0.7;
     time_liner_priority := VFloat 0.6;
     claude4_integration := VBool true;
     temporal_acceleration := VFloat 1.0;
     strategic_horizon := VInt 90 |}.

(** The same context with its items inserted in the other order. *)
Definition reordered_context : value :=
  VDict [("phase", VInt 2); ("mission", VStr "alpha")].

Definition prediction (confidence : float) : value :=
  VDict [("prediction", VDict [("confidence", VFloat confidence)])].

(** Both backends answer 200; the Claude call fails. *)
Definition world_ok (now : string) (t_lookup t_store : Q) : world :=
  {| utc_now := now;
     lookup_time := t_lookup;
     dr_lucy_reply := Replied 200 (Ok (prediction 0.9));
     dream_commander_reply := Replied 200 (Ok (prediction 0.7));
     claude_reply := ClaudeRaises (OtherError "overloaded");
     claude_utc_now := now;
     store_time := t_store |}.

(** Dr Lucy times out and Dream Commander answers 500. *)
Definition world_down (now : string) (t_lookup t_store : Q) : world :=
  {| utc_now := now;
     lookup_time := t_lookup;
     dr_lucy_reply := Failed TimeoutError;
     dream_commander_reply := Replied 500 (Ok (VDict [("error", VStr "internal")]));
     claude_reply := ClaudeRaises (OtherError "overloaded");
     claude_utc_now := now;
     store_time := t_store |}.

(** Dr Lucy answers 200 with a body whose [prediction] is a number. *)
Definition world_odd (now : string) (t_lookup t_store : Q) : world :=
  {| utc_now := now;
     lookup_time := t_lookup;
     dr_lucy_reply := Replied 200 (Ok (VDict [("prediction", VInt 5)]));
     dream_commander_reply := Replied 200 (Ok (prediction 0.7));
     claude_reply := ClaudeRaises (OtherError "overloaded");
     claude_utc_now := now;
     store_time := t_store |}.

End Sample.

Local Close Scope Q_scope.

(** ** Vocabulary of the statements *)

(** The weights the code gives to its three sources, and the status the
    specification would assign to a result: the code only tests whether a
    result is truthy. *)
Definition source_weights : list float := [0.3; 0.3; 0.2]%float.

Definition status_of (result : value) : Spec.status :=
  if Py.truthy result then Spec.Success else Spec.Error.

(** The bonus the Claude analysis contributes: a fifth of its
    [confidence], when it is a dict that has one; converting an [int]
    confidence to a float may fail. *)
Inductive confidence_bonus : value → result float → Prop :=
| bonus_absent claude4 :
    Py.truthy claude4 = false → confidence_bonus claude4 (Ok 0%float)
| bonus_no_confidence d :
    Py.truthy (VDict d) = true → Py.dict_get d "confidence" = None →
    confidence_bonus (VDict d) (Ok 0%float)
| bonus_confidence d v n :
    Py.dict_get d "confidence" = Some v → Py.to_number v = Some n →
    confidence_bonus (VDict d) (c ← Py.to_float n; Ok (c * 0.2)%float).

(** The confidence a backend result reports:
    [result["prediction"]["confidence"]], when present and not null. *)
Definition reported_confidence (result : value) : option value :=
  match result with
  | VDict d =>
      match Py.dict_get d "prediction" with
      | Some (VDict p) =>
          match Py.dict_get p "confidence" with
          | Some VNone => None
          | c => c
          end
      | _ => None
      end
  | _ => None
  end.

(** How many results are successful (truthy), and how many of those
    report a confidence. *)
Definition successes (results : list value) : nat :=
  length (filter (λ r, Py.truthy r = true) results).

Definition successes_with_confidence (results : list value) : nat :=
  length (filter (λ r, Py.truthy r = true ∧ is_Some (reported_confidence r)) results).

(** A result that reports the confidence [c] and nothing else. *)
Definition result_reporting (c : value) : value :=
  VDict [("prediction", VDict [("confidence", c)])].

(** A successful result in which the confidence is missing: it has no
    "prediction", or its "prediction" is a dict without "confidence". *)
Definition lacks_confidence (result : value) : bool :=
  match result with
  | VDict d =>
      Py.truthy result &&
      match Py.dict_get d "prediction" with
      | None => true
      | Some (VDict p) =>
          match Py.dict_get p "confidence" with
          | None => true
          | Some _ => false
          end
      | Some _ => false
      end
  | _ => false
  end.

(** [result.get('prediction', {}).get('confidence', 0.5)]. *)
Definition confidence_read (backend_result : value) : result value :=
  prediction ← Py.get backend_result "prediction" (VDict []);
  Py.get prediction "confidence" (VFloat 0.5).

(** The dict [normalize_input] wraps a text in. *)
Definition scenario (text : string) : value := VDict [("scenario", VStr text)].

(** What a backend contributes to the response: the decoded body of a 200
    reply from a configured endpoint, [None] in every other case. *)
Definition backend_payload (endpoint : option string) (reply : http_outcome) : value :=
  match configured endpoint with
  | None => VNone
  | Some _ =>
      match reply with
      | Replied status (Ok body) => if (status =? 200)%Z then body else VNone
      | _ => VNone
      end
  end.

(** Whether the request for Dream Commander can be built: [min] has to
    compare the strategic horizon of the request with the controller's. *)
Definition horizon_comparable (self : PredictionPipelineController)
    (request : PredictionRequest) : bool :=
  match Py.min_int (time_liner_horizon self) (strategic_horizon request) with
  | Ok _ => true
  | Raise _ => false
  end.

(** What Dream Commander contributes: its payload when the request could
    be built and sent, [None] otherwise. *)
Definition dream_commander_payload (self : PredictionPipelineController)
    (request : PredictionRequest) (reply : http_outcome) : value :=
  if horizon_comparable self request
  then backend_payload (dream_commander_endpoint self) reply
  else VNone.

(** The world [w] in which Dr Lucy answers with [reply] instead. *)
Definition with_dr_lucy_reply (reply : http_outcome) (w : world) : world :=
  {| utc_now := utc_now w;
     lookup_time := lookup_time w;
     dr_lucy_reply := reply;
     dream_commander_reply := dream_commander_reply w;
     claude_reply := claude_reply w;
     claude_utc_now := claude_utc_now w;
     store_time := store_time w |}.

(** The number of Claude API calls among the calls made. *)
Definition is_claude_call (e : event) : bool :=
  match e with
  | MessagesCreate _ => true
  | _ => false
  end.

Definition claude_calls (events : list event) : nat :=
  length (List.filter is_claude_call events).

(** The cache key of a request (lines 299-300). *)
Definition request_key `{PyRuntime} (request : PredictionRequest) : string :=
  _cache_key (session_id request) (_context_hash (mission_context request)).

(** A controller whose TTL is 100 seconds, a cache that holds one entry
    for the sample request inserted at time 0. *)
Definition short_ttl_controller : PredictionPipelineController :=
  {| dr_lucy_endpoint := dr_lucy_endpoint Sample.controller;
     dream_commander_endpoint := dream_commander_endpoint Sample.controller;
     claude4_enabled := claude4_enabled Sample.controller;
     claude4_client := claude4_client Sample.controller;
     claude4_model := claude4_model Sample.controller;
     time_presser_factor := time_presser_factor Sample.controller;
     time_liner_horizon := time_liner_horizon Sample.controller;
     temporal_coherence_threshold := temporal_coherence_threshold Sample.controller;
     prediction_timeout := prediction_timeout Sample.controller;
     max_concurrent := max_concurrent Sample.controller;
     cache_ttl := 100 |}.

Definition stale_response : PipelineResponse :=
  {| response_session_id := VStr "s1";
     timestamp := "long ago";
     time_presser_prediction := Sample.prediction 0.9;
     time_liner_prediction := Sample.prediction 0.7;
     claude4_analysis := VNone;
     coordination_score := 0.6;
     temporal_coherence := 0.7999999999999999;
     pipeline_status := "completed" |}.

Definition one_entry_cache : prediction_cache :=
  {[ @request_key Sample.runtime Sample.request := (stale_response, 0%Q) ]}.

(** The system when the given callers have just arrived. *)
Definition start (cache : prediction_cache) (arrivals : list (world * PredictionRequest))
    : system :=
  {| shared_cache := cache;
     fan_outs := 0;
     trace := [];
     callers := map (λ a, arrive (fst a) (snd a)) arrivals |}.



(** ** The readiness route ([main.py], lines 394-406)

    The route is modelled by the JSON document it hands to [jsonify] and
    its status code; [now] is [datetime.now(timezone.utc).isoformat()]. *)

Module Routes.
Section Routes.
Variable self : PredictionPipelineController.

(** [endpoint is not None]. *)
Definition is_not_None (endpoint : option string) : bool :=
  match endpoint with
  | Some _ => true
  | None => false
  end.

Definition readiness_check (now : string) : value * Z :=
  let is_ready :=
    is_not_None (dr_lucy_endpoint self) && is_not_None (dream_commander_endpoint self) in
  let status_code := if is_ready then 200%Z else 503%Z in
  (VDict [("ready", VBool is_ready); ("timestamp", VStr now)], status_code).

End Routes.
End Routes.

(** ** Vocabulary of the further properties *)

(** The URLs of the HTTP posts to the backends among the calls made. *)
Definition posted_urls (events : list event) : list string :=
  omap (λ e, match e with HttpPost url _ => Some url | _ => None end) events.

(** The posts one run of the pipeline owes: one to the [/predict] route
    of each backend whose endpoint is set and not empty, unless, for Dream
    Commander, its request cannot be built. *)
Definition expected_posts (self : PredictionPipelineController)
    (request : PredictionRequest) : list string :=
  (match configured (dr_lucy_endpoint self) with
   | Some url => [url +:+ "/predict"]
   | None => []
   end ++
   match configured (dream_commander_endpoint self) with
   | Some url => if horizon_comparable self request then [url +:+ "/predict"] else []
   | None => []
   end)%list.

(** Every cached response is filed under a key made from its own session
    id and a digest of [digest_length] characters. *)
Definition cache_sound `{PyRuntime} (digest_length : nat) (cache : prediction_cache)
    : Prop :=
  ∀ key response cache_time,
    cache !! key = Some (response, cache_time) →
    ∃ digest,
      String.length digest = digest_length ∧
      key = _cache_key (response_session_id response) digest.

(** Two scoring outcomes agree: the same exception, or the same score. *)
Definition same_outcome (r1 r2 : result float) : Prop :=
  match r1, r2 with
  | Ok a, Ok b => a = b
  | Raise e1, Raise e2 => e1 = e2
  | _, _ => False
  end.

(** [s] has no character [c]. *)
Fixpoint free_of (c : ascii) (s : string) : bool :=
  match s with
  | EmptyString => true
  | String x s' => negb (Ascii.eqb x c) && free_of c s'
  end.

(** What the analysis makes of a reply whose JSON part is [document]:
    the parsed document, the wrapped text when it is not JSON, [None] on
    any other failure. *)
Definition analysis_of `{PyRuntime} (document reply now : string) : result value :=
  catch
    (catch_json_decode (json_loads document)
       (Ok (VDict [("analysis_text", VStr reply);
                   ("confidence", VFloat 0.8);
                   ("timestamp", VStr now)])))
    (λ _, Ok VNone).

(** The score of a run in which Claude answered with plain text, by the
    number of backends that succeeded. *)
Definition plain_text_score (succeeded : nat) : float :=
  match succeeded with
  | 0%nat => 0.36000000000000004
  | 1%nat => 0.66
  | _ => 0.9600000000000001
  end.

(** ** The Dr Lucy prediction service ([dr_lucy_service_fixed.py], lines 58-247) *)

(** What [predict] reads from the outside: [int(time.time())], the four
    draws of [random.uniform] (named after the comments of lines 113-116)
    and [datetime.utcnow().isoformat()]. *)
Record lucy_world : Type := {
  unix_time : Z;
  base_confidence : float;
  context_relevance : float;
  temporal_accuracy : float;
  risk_assessment : float;
  utcnow : string;
}.

Module DrLucyPrediction.
Section Methods.
Context `{PyRuntime}.

(** [v.lower()]: only a string has the method. *)
Definition lower_of (v : value) : result string :=
  match v with
  | VStr s => Ok (lower s)
  | _ => Raise AttributeError
  end.

(** [v[:n]]: strings and lists can be sliced. *)
Definition prefix_of (n : nat) (v : value) : result value :=
  match v with
  | VStr s => Ok (VStr (text_prefix n s))
  | VList l => Ok (VList (take n l))
  | _ => Raise TypeError
  end.

(** [len(v)]. *)
Definition len_of (v : value) : result nat :=
  match v with
  | VStr s => Ok (text_length s)
  | VList l => Ok (length l)
  | VDict d => Ok (length d)
  | _ => Raise TypeError
  end.

(** [scores[i]]. *)
Definition score_at (scores : list float) (i : nat) : result float :=
  match scores !! i with
  | Some q => Ok q
  | None => Raise (OtherError "IndexError")
  end.

Definition extract_scenario_text (scenario_input : value) : result value :=
  catch
    match scenario_input with
    | VDict d =>
        match Py.dict_get d "description" with
        | Some description => Ok description
        | None =>
            match Py.dict_get d "scenario" with
            | Some scenario => Ok (VStr (Py.str scenario))
            | None =>
                Ok (VStr ("Complex scenario with parameters: "
                          +:+ Py.repr (VList (map (λ kv, VStr (fst kv)) d))))
            end
        end
    | VStr _ => Ok scenario_input
    | _ => Ok (VStr (Py.str scenario_input))
    end
    (λ _, Ok (VStr "scenario extraction failed")).

Definition _assess_complexity (scenario_text data : value) : string :=
  match
    (text_len ← len_of scenario_text;
     let factors := 0%nat in
     let factors := if (100 <? text_len)%nat then (factors + 1)%nat else factors in
     scenario ← Py.get data "scenario" VNone;
     factors ←
       match scenario with
       | VDict d => Ok (factors + length d)%nat
       | _ => Ok factors
       end;
     has_additional ← Py.contains "additional_factors" data;
     factors ←
       (if has_additional : bool then
          additional ← Py.get data "additional_factors" (VDict []);
          n ← len_of additional;
          Ok (factors + n)%nat
        else Ok factors);
     Ok (if (10 <? factors)%nat then "high"
         else if (5 <? factors)%nat then "moderate"
         else "low"))
  with
  | Ok level => level
  | Raise _ => "unknown"
  end.

Definition _generate_memory_references (now : Z) (scenario context : value)
    : result (list value) :=
  let session_id := "flight_mem_" +:+ Py.int_repr now in
  let refs := [VStr session_id] in
  scenario_lower ← lower_of scenario;
  let refs :=
    if Py.is_substring "quantum" scenario_lower
    then (refs ++ [VStr "quantum_computing_memories"])%list else refs in
  mentions_ai ←
    (if Py.is_substring "ai" scenario_lower then Ok true
     else context_lower ← lower_of context; Ok (Py.is_substring "ai" context_lower));
  let refs :=
    if mentions_ai : bool
    then (refs ++ [VStr "ai_system_experiences"])%list else refs in
  let refs :=
    if Py.is_substring "temporal" scenario_lower || Py.is_substring "time" scenario_lower
    then (refs ++ [VStr "temporal_acceleration_data"])%list else refs in
  Ok refs.

Definition _generate_outcomes (scenario context : value) (confidence_scores : list float)
    : result (list value) :=
  probability ← score_at confidence_scores 0;
  shown ← prefix_of 50 scenario;
  let outcomes := [VDict [
    ("outcome_type", VStr "success");
    ("probability", VFloat probability);
    ("factors", VList [VStr "neural_network_analysis"; VStr "flight_memory_integration"]);
    ("description", VStr ("Successful completion of " +:+ Py.str shown +:+ "..."))]] in
  scenario_lower ← lower_of scenario;
  outcomes ←
    (if Py.is_substring "quantum" scenario_lower then
       probability ← score_at confidence_scores 1;
       Ok (outcomes ++ [VDict [
         ("outcome_type", VStr "quantum_optimization");
         ("probability", VFloat probability);
         ("factors", VList [VStr "quantum_coherence"; VStr "error_correction"]);
         ("description", VStr "Enhanced quantum system performance")]])%list
     else Ok outcomes);
  outcomes ←
    (if Py.is_substring "temporal" scenario_lower || Py.is_substring "time" scenario_lower
     then
       probability ← score_at confidence_scores 2;
       Ok (outcomes ++ [VDict [
         ("outcome_type", VStr "temporal_acceleration");
         ("probability", VFloat probability);
         ("factors", VList [VStr "time_compression"; VStr "causality_preservation"]);
         ("description", VStr "Temporal acceleration capabilities activated")]])%list
     else Ok outcomes);
  Ok outcomes.

(** [any(o["probability"] > 0.8 for o in outcomes)]: stops at the first
    outcome above 0.8. *)
Fixpoint any_above (threshold : float) (outcomes : list value) : result bool :=
  match outcomes with
  | [] => Ok false
  | o :: rest =>
      probability ← Py.getitem o "probability";
      above ← Py.gt_float probability threshold;
      if above : bool then Ok true else any_above threshold rest
  end.

Definition _generate_recommendations (scenario context : value) (outcomes : list value)
    : result (list value) :=
  confident ← any_above 0.8 outcomes;
  let actions :=
    if confident : bool
    then [VStr "Proceed with high confidence - success probability excellent"]
    else [VStr "Proceed with caution - monitor key risk factors"] in
  scenario_lower ← lower_of scenario;
  let actions :=
    if Py.is_substring "quantum" scenario_lower
    then (actions ++ [VStr "Optimize quantum error correction protocols";
                      VStr "Maintain coherence time above critical thresholds"])%list
    else actions in
  let actions :=
    if Py.is_substring "temporal" scenario_lower
    then (actions ++ [VStr "Activate temporal compression systems gradually";
                      VStr "Monitor causality preservation metrics"])%list
    else actions in
  context_lower ← lower_of context;
  let actions :=
    if Py.is_substring "integration" context_lower
    then (actions ++ [VStr "Validate system integration points thoroughly";
                      VStr "Plan phased deployment approach"])%list
    else actions in
  Ok actions.

Definition model_version : string := "dr_lucy_v1.0_fixed".

(** The document [predict] returns when its body raises [e]. *)
Definition fallback_prediction (now : string) (e : exn) : value :=
  VDict [
    ("predicted_outcomes", VList [VDict [
       ("outcome_type", VStr "error_recovery");
       ("probability", VFloat 0.8);
       ("factors", VList [VStr "robust_error_handling"])]]);
    ("confidence_scores",
       VList [VFloat 0.6; VFloat 0.7; VFloat 0.5; VFloat 0.6]);
    ("recommended_actions",
       VList [VStr "System recovered from processing error";
              VStr "Prediction completed with fallback logic"]);
    ("memory_references", VList [VStr "error_recovery_session"]);
    ("metadata", VDict [
       ("model_version", VStr model_version);
       ("prediction_method", VStr "fallback_processing");
       ("error_handled", VStr (exception_text e));
       ("timestamp", VStr now)])
  ].

Definition predict (w : lucy_world) (request_data : value) : result value :=
  catch
    (normalized_data ← DrLucyFlightMemory.normalize_input request_data;
     scenario_input ← Py.get normalized_data "scenario" (VStr "");
     scenario ← extract_scenario_text scenario_input;
     context ← Py.get normalized_data "context" (VStr "");
     time_horizon ← Py.get normalized_data "time_horizon" (VStr "unknown");
     scenario_field ← Py.get normalized_data "scenario" VNone;
     scenario_text ←
       match scenario_field with
       | VDict _ =>
           scenario_obj ← Py.getitem normalized_data "scenario";
           extract_scenario_text scenario_obj
       | _ => Ok scenario
       end;
     logged ← prefix_of 100 scenario_text;
     memory_refs ← _generate_memory_references (unix_time w) scenario_text context;
     let confidence_scores :=
       [base_confidence w; context_relevance w; temporal_accuracy w;
        risk_assessment w] in
     outcomes ← _generate_outcomes scenario_text context confidence_scores;
     actions ← _generate_recommendations scenario_text context outcomes;
     Ok (VDict [
       ("predicted_outcomes", VList outcomes);
       ("confidence_scores", VList (map VFloat confidence_scores));
       ("recommended_actions", VList actions);
       ("memory_references", VList memory_refs);
       ("metadata", VDict [
          ("model_version", VStr model_version);
          ("prediction_method", VStr "enhanced_neural_network");
          ("scenario_complexity",
             VStr (_assess_complexity scenario_text normalized_data));
          ("processing_time_ms", VInt 50);
          ("timestamp", VStr (utcnow w))])]))
    (λ e, Ok (fallback_prediction (utcnow w) e)).

End Methods.
End DrLucyPrediction.

Module SampleText.

Definition world : lucy_world :=
  {| unix_time := 1700000000;
     base_confidence := 0.9;
     context_relevance := 0.7;
     temporal_accuracy := 0.6;
     risk_assessment := 0.5;
     utcnow := "t0" |}.

End SampleText.

(** ** Further concrete configurations *)

Module SampleMore.

(** The sample controller with another Dr Lucy endpoint. *)
Definition with_dr_lucy_endpoint (endpoint : option string)
    (c : PredictionPipelineController) : PredictionPipelineController :=
  {| dr_lucy_endpoint := endpoint;
     dream_commander_endpoint := dream_commander_endpoint c;
     claude4_enabled := claude4_enabled c;
     claude4_client := claude4_client c;
     claude4_model := claude4_model c;
     time_presser_factor := time_presser_factor c;
     time_liner_horizon := time_liner_horizon c;
     temporal_coherence_threshold := temporal_coherence_threshold c;
     prediction_timeout := prediction_timeout c;
     max_concurrent := max_concurrent c;
     cache_ttl := cache_ttl c |}.

(** A digest of 32 characters: the text, cut or padded with zeros. *)
Definition padded_digest (text : string) : string :=
  String.substring 0 32 (text +:+ "00000000000000000000000000000000").

Definition padded_runtime : PyRuntime :=
  {| json_loads := json_loads (PyRuntime := Sample.runtime);
     md5_hexdigest := padded_digest;
     float_repr := float_repr (PyRuntime := Sample.runtime);
     encode_basestring_ascii := encode_basestring_ascii (PyRuntime := Sample.runtime);
     str_repr := str_repr (PyRuntime := Sample.runtime);
     lower := lower (PyRuntime := Sample.runtime);
     text_prefix := text_prefix (PyRuntime := Sample.runtime);
     text_length := text_length (PyRuntime := Sample.runtime);
     exception_text := exception_text (PyRuntime := Sample.runtime) |}.

(** A runtime whose [json_loads] knows one document, the list [[1, 2]]. *)
Definition list_runtime : PyRuntime :=
  {| json_loads := λ s,
       if String.eqb s "[1, 2]" then Ok (VList [VInt 1; VInt 2])
       else Raise JSONDecodeError;
     md5_hexdigest := md5_hexdigest (PyRuntime := Sample.runtime);
     float_repr := float_repr (PyRuntime := Sample.runtime);
     encode_basestring_ascii := encode_basestring_ascii (PyRuntime := Sample.runtime);
     str_repr := str_repr (PyRuntime := Sample.runtime);
     lower := lower (PyRuntime := Sample.runtime);
     text_prefix := text_prefix (PyRuntime := Sample.runtime);
     text_length := text_length (PyRuntime := Sample.runtime);
     exception_text := exception_text (PyRuntime := Sample.runtime) |}.

(** The sample request with another session id, or with another
    strategic horizon. *)
Definition with_session_id (session : value) (r : PredictionRequest)
    : PredictionRequest :=
  {| session_id := session;
     mission_context := mission_context r;
     time_presser_priority := time_presser_priority r;
     time_liner_priority := time_liner_priority r;
     claude4_integration := claude4_integration r;
     temporal_acceleration := temporal_acceleration r;
     strategic_horizon := strategic_horizon r |}.

Definition with_strategic_horizon (horizon : value) (r : PredictionRequest)
    : PredictionRequest :=
  {| session_id := session_id r;
     mission_context := mission_context r;
     time_presser_priority := time_presser_priority r;
     time_liner_priority := time_liner_priority r;
     claude4_integration := claude4_integration r;
     temporal_acceleration := temporal_acceleration r;
     strategic_horizon := horizon |}.

(** The sample request with the items of its context in the other
    order. *)
Definition reordered_request : PredictionRequest :=
  {| session_id := session_id Sample.request;
     mission_context := Sample.reordered_context;
     time_presser_priority := time_presser_priority Sample.request;
     time_liner_priority := time_liner_priority Sample.request;
     claude4_integration := claude4_integration Sample.request;
     temporal_acceleration := temporal_acceleration Sample.request;
     strategic_horizon := strategic_horizon Sample.request |}.

(** What the sample controller composes when both backends are down. *)
Definition failed_response : PipelineResponse :=
  {| response_session_id := VStr "s1";
     timestamp := "t0";
     time_presser_prediction := VNone;
     time_liner_prediction := VNone;
     claude4_analysis := VNone;
     coordination_score := 0.0;
     temporal_coherence := 0.5;
     pipeline_status := "failed" |}.

(** A response that was composed for the session id 1, a number. *)
Definition numbered_response : PipelineResponse :=
  {| response_session_id := VInt 1;
     timestamp := "t0";
     time_presser_prediction := VNone;
     time_liner_prediction := VNone;
     claude4_analysis := VNone;
     coordination_score := 0.0;
     temporal_coherence := 0.5;
     pipeline_status := "failed" |}.

End SampleMore.

(** A cache that holds one response, composed for the session id 1, a
    number. *)
Definition numbered_cache `{PyRuntime} : prediction_cache :=
  {[ request_key (SampleMore.with_session_id (VInt 1) Sample.request)
       := (SampleMore.numbered_response, 0%Q) ]}.

(** ** Intake of the two prediction routes

    [request.get_json()] has already produced [request_data]; an
    exception that escapes the intake is answered 500 by the route's
    [except Exception]. *)

(** Lines 411-426 of [main.py]: the request the route builds, [None]
    when it answers 400. *)
Definition coordinated_prediction_request (request_data : value)
    : result (option PredictionRequest) :=
  invalid ←
    (if negb (Py.truthy request_data) then Ok true
     else
       has_session_id ← Py.contains "session_id" request_data;
       if negb has_session_id then Ok true
       else
         has_mission_context ← Py.contains "mission_context" request_data;
         Ok (negb has_mission_context));
  if invalid : bool then Ok None
  else
    session_id ← Py.getitem request_data "session_id";
    mission_context ← Py.getitem request_data "mission_context";
    time_presser_priority ←
      Py.get request_data "time_presser_priority" (VFloat 0.7);
    time_liner_priority ← Py.get request_data "time_liner_priority" (VFloat 0.6);
    claude4_integration ← Py.get request_data "claude4_integration" (VBool true);
    temporal_acceleration ←
      Py.get request_data "temporal_acceleration" (VFloat 1.0);
    strategic_horizon ← Py.get request_data "strategic_horizon" (VInt 90);
    Ok (Some {| session_id := session_id;
                mission_context := mission_context;
                time_presser_priority := time_presser_priority;
                time_liner_priority := time_liner_priority;
                claude4_integration := claude4_integration;
                temporal_acceleration := temporal_acceleration;
                strategic_horizon := strategic_horizon |}).

(** The [/predict] route of the Dr Lucy service
    ([dr_lucy_service_fixed.py], lines 263-299): the document handed to
    [jsonify] and the status code.  The Firestore write sits in a
    [try] of its own that swallows every exception, so it has no part in
    the answer. *)
Definition predict_route `{PyRuntime} (w : lucy_world) (request_data : value)
    : value * Z :=
  match
    (let request_data := if Py.truthy request_data then request_data else VDict [] in
     let request_data :=
       if negb (Py.truthy request_data)
       then VDict [("scenario", VStr "general prediction request")]
       else request_data in
     DrLucyPrediction.predict w request_data)
  with
  | Ok prediction => (prediction, 200%Z)
  | Raise e =>
      (VDict [("error", VStr ("Prediction service error: " +:+ exception_text e));
              ("status", VStr "error");
              ("timestamp", VStr (utcnow w));
              ("service", VStr "dr-lucy-flight-memory")],
       500%Z)
  end.

Arguments _calculate_coordination_score : simpl never.
Arguments _calculate_temporal_coherence : simpl never.

(** Case analysis on the two scoring calls inside [compose_response]:
    the branches in which one of them raises are closed at once. *)
Ltac case_scores :=
  destruct (_calculate_coordination_score _ _ _) as [?score|?]; cbn; [|done];
  destruct (_calculate_temporal_coherence _ _) as [?coherence|?]; cbn; [|done].

(** * Properties *)

(** ** Comparing and subtracting binary64 numbers *)

Lemma SFcompare_antisym (x y : spec_float) :
  SFcompare y x = CompOpp <$> SFcompare x y.
Proof.
  destruct x as [sx|sx| |sx mx ex], y as [sy|sy| |sy my ey]; try done;
    try (by destruct sx); try (by destruct sy); try (by destruct sx, sy).
  pose proof (Pos.compare_cont_antisym mx my Eq) as Hp. cbn in Hp.
  cbn. destruct sx, sy; try done; f_equal;
    rewrite (Z.compare_antisym ex ey); destruct (ex ?= ey)%Z; cbn; try done;
    rewrite <- Hp; by destruct (Pos.compare_cont Eq mx my).
Qed.

Lemma ltb_leb (x y : float) : (x <? y)%float = true → (x <=? y)%float = true.
Proof.
  rewrite FloatAxioms.ltb_spec, FloatAxioms.leb_spec. unfold SFltb, SFleb.
  by destruct (SFcompare (Prim2SF x) (Prim2SF y)) as [[]|].
Qed.

(** A float that is not above [y] is at most [y], unless one of the two
    is a NaN. *)
Lemma not_ltb_leb (x y : float) :
  (y <? x)%float = false →
  (x <=? y)%float = true ∨ is_nan x = true ∨ is_nan y = true.
Proof.
  intros Hlt. unfold is_nan. rewrite FloatAxioms.leb_spec, !FloatAxioms.eqb_spec.
  rewrite FloatAxioms.ltb_spec in Hlt. revert Hlt. unfold SFltb, SFleb, SFeqb.
  rewrite (SFcompare_antisym (Prim2SF x) (Prim2SF y)).
  destruct (Prim2SF x) as [sx|sx| |sx mx ex] eqn:Hx; [| |by right; left|];
    (destruct (Prim2SF y) as [sy|sy| |sy my ey] eqn:Hy; [| |by right; right|]);
    destruct (SFcompare _ _) as [[]|] eqn:Hc; cbn; auto; try done;
    cbn in Hc; by repeat case_match.
Qed.

Lemma SFabs_binary_round (s1 s2 : bool) (m : positive) (e : Z) :
  SFabs (binary_round prec emax s1 m e) = SFabs (binary_round prec emax s2 m e).
Proof.
  unfold binary_round, binary_round_aux.
  destruct (shl_align _ _ _) as [mz ez].
  destruct (shr_fexp _ _ _ _ _) as [mrs' e'].
  destruct (shr_fexp _ _ _ _ _) as [mrs'' e''].
  destruct (shr_m mrs''); [done| |done]. by destruct (_ <=? _)%Z.
Qed.

Lemma SFabs_binary_normalize_opp (m e : Z) :
  SFabs (binary_normalize prec emax (- m) e false)
    = SFabs (binary_normalize prec emax m e false).
Proof. destruct m; cbn; [done|apply SFabs_binary_round..]. Qed.

Lemma SFabs_SFsub_sym (x y : spec_float) :
  SFabs (SFsub prec emax x y) = SFabs (SFsub prec emax y x).
Proof.
  destruct x as [sx|sx| |sx mx ex], y as [sy|sy| |sy my ey]; try done;
    try (by destruct sx); try (by destruct sy); try (by destruct sx, sy).
  cbn -[binary_normalize shl_align]. rewrite (Z.min_comm ey ex).
  rewrite <- SFabs_binary_normalize_opp. f_equal. f_equal. lia.
Qed.

(** [abs(a - b)] does not see the order of [a] and [b]. *)
Lemma abs_sub_sym (x y : float) :
  PrimFloat.abs (x - y)%float = PrimFloat.abs (y - x)%float.
Proof.
  apply Prim2SF_inj. rewrite !FloatAxioms.abs_spec, !FloatAxioms.sub_spec. apply SFabs_SFsub_sym.
Qed.

Lemma SFsub_diag (x : spec_float) :
  SFsub prec emax x x = S754_zero false ∨ SFsub prec emax x x = S754_nan.
Proof.
  destruct x as [s|s| |s m e]; [left; by destruct s|right; by destruct s|by right|].
  left. cbn -[binary_normalize shl_align]. by rewrite Z.sub_diag.
Qed.

(** A float minus itself is zero, or a NaN (for an infinity or a NaN). *)
Lemma sub_diag (x : float) : (x - x)%float = 0%float ∨ (x - x)%float = nan.
Proof.
  destruct (SFsub_diag (Prim2SF x)) as [Hz|Hn]; [left|right];
    apply Prim2SF_inj; by rewrite FloatAxioms.sub_spec.
Qed.

(** ** Ordering of keys *)

Lemma string_compare_lt_trans (s1 s2 s3 : string) :
  String.compare s1 s2 = Lt → String.compare s2 s3 = Lt → String.compare s1 s3 = Lt.
Proof.
  revert s2 s3. induction s1 as [|a s1 IH]; intros [|b s2] [|c s3]; simpl; try done.
  unfold Ascii.compare.
  destruct (N.compare_spec (N_of_ascii a) (N_of_ascii b)) as [Hab|Hab|Hab];
    destruct (N.compare_spec (N_of_ascii b) (N_of_ascii c)) as [Hbc|Hbc|Hbc];
    try done; intros H1 H2.
  - rewrite Hab, Hbc, N.compare_refl. eauto.
  - rewrite Hab. by apply N.compare_lt_iff in Hbc as ->.
  - rewrite <- Hbc. by apply N.compare_lt_iff in Hab as ->.
  - assert (N_of_ascii a < N_of_ascii c)%N as Hac by lia.
    by apply N.compare_lt_iff in Hac as ->.
Qed.

Lemma string_leb_trans (s1 s2 s3 : string) :
  String.leb s1 s2 = true → String.leb s2 s3 = true → String.leb s1 s3 = true.
Proof.
  unfold String.leb.
  destruct (String.compare s1 s2) eqn:H12; [| |done].
  - apply String.compare_eq_iff in H12 as ->. done.
  - destruct (String.compare s2 s3) eqn:H23; [| |done].
    + apply String.compare_eq_iff in H23 as <-. by rewrite H12.
    + by rewrite (string_compare_lt_trans _ _ _ H12 H23).
Qed.

Lemma string_leb_false (s1 s2 : string) :
  String.leb s1 s2 = false → String.leb s2 s1 = true.
Proof. destruct (String.leb_total s1 s2) as [->| ->]; done. Qed.

(** ** Sorting the items of a dict *)

Section SortedItems.
Context {A : Type}.
Implicit Types (x y : string * A) (l : list (string * A)).

Lemma insert_item_comm x y l :
  fst x ≠ fst y →
  Json.insert_item x (Json.insert_item y l) = Json.insert_item y (Json.insert_item x l).
Proof.
  intros Hne. induction l as [|z l IH]; simpl.
  - destruct (String.leb x.1 y.1) eqn:Hxy, (String.leb y.1 x.1) eqn:Hyx; try done.
    + destruct Hne. by apply String.leb_antisym.
    + apply string_leb_false in Hxy. congruence.
  - destruct (String.leb y.1 z.1) eqn:Hyz, (String.leb x.1 z.1) eqn:Hxz; simpl;
      rewrite ?Hyz, ?Hxz.
    + destruct (String.leb x.1 y.1) eqn:Hxy, (String.leb y.1 x.1) eqn:Hyx;
        simpl; rewrite ?Hyz, ?Hxz; try done.
      * destruct Hne. by apply String.leb_antisym.
      * apply string_leb_false in Hxy. congruence.
    + destruct (String.leb x.1 y.1) eqn:Hxy; [|done].
      by rewrite (string_leb_trans _ _ _ Hxy Hyz) in Hxz.
    + destruct (String.leb y.1 x.1) eqn:Hyx; [|done].
      by rewrite (string_leb_trans _ _ _ Hyx Hxz) in Hyz.
    + by rewrite IH.
Qed.

(** Sorting neither drops nor duplicates an item. *)
Lemma insert_item_Permutation x l : Json.insert_item x l ≡ₚ x :: l.
Proof.
  induction l as [|z l IH]; simpl; [done|].
  destruct (String.leb x.1 z.1); [done|].
  rewrite IH. apply perm_swap.
Qed.

Lemma sorted_items_Permutation l : Json.sorted_items l ≡ₚ l.
Proof.
  induction l as [|x l IH]; simpl; [done|].
  unfold Json.sorted_items in *. simpl.
  by rewrite insert_item_Permutation, IH.
Qed.

(** Dicts that hold the same items in a different insertion order are
    sorted to the same list. *)
Lemma sorted_items_reorder l1 l2 :
  NoDup (map fst l1) → l1 ≡ₚ l2 → Json.sorted_items l1 = Json.sorted_items l2.
Proof.
  intros Hnd Hp. induction Hp as [|x l1 l2 Hp IH|x y l|l1 l2 l3 Hp1 IH1 Hp2 IH2].
  - done.
  - unfold Json.sorted_items in *. simpl. f_equal. apply IH.
    by apply NoDup_cons in Hnd as [_ ?].
  - unfold Json.sorted_items. simpl. apply insert_item_comm.
    simpl in Hnd. apply NoDup_cons in Hnd as [Hy _].
    intros Heq. apply Hy. rewrite Heq. left.
  - rewrite IH1 by done. apply IH2. by rewrite <- Hp1.
Qed.
End SortedItems.

(** Encoding the values before or after sorting gives the same list: the
    order in which [Json.dumps] does it is the encoder's. *)
Lemma insert_item_encoded {A B : Type} (f : A → B) (x : string * A)
    (l : list (string * A)) :
  Json.insert_item (x.1, f x.2) (map (λ kv, (kv.1, f kv.2)) l)
    = map (λ kv, (kv.1, f kv.2)) (Json.insert_item x l).
Proof.
  induction l as [|y l IH]; simpl; [done|].
  destruct (String.leb x.1 y.1); simpl; [done|]. by rewrite IH.
Qed.

Lemma sorted_items_encoded {A B : Type} (f : A → B) (d : list (string * A)) :
  Json.sorted_items (map (λ kv, (kv.1, f kv.2)) d)
    = map (λ kv, (kv.1, f kv.2)) (Json.sorted_items d).
Proof.
  unfold Json.sorted_items. induction d as [|x d IH]; simpl; [done|].
  by rewrite IH, insert_item_encoded.
Qed.

(** ** The serialisation does not see insertion order *)

Lemma map_related {A B : Type} (R : A → A → Prop) (f g : A → B) (l1 l2 : list A) :
  Forall2 R l1 l2 →
  Forall (λ x, ∀ y, R x y → f x = g y) l1 →
  map f l1 = map g l2.
Proof.
  induction 1 as [|x y l1 l2 Hxy _ IH]; intros Hall; [done|].
  apply Forall_cons in Hall as [Hx Hl]. simpl. f_equal; auto.
Qed.

Section DumpsStable.
Context `{PyRuntime}.

Lemma dumps_same_value (v1 : value) :
  wf_value v1 → ∀ v2, same_value v1 v2 → Json.dumps v1 = Json.dumps v2.
Proof.
  induction v1 as [| | | | |l IH|d IH] using value_nested_ind;
    intros Hwf v2 Hsame; inversion Hsame; subst; try done.
  - (* lists *)
    inversion Hwf as [| | | | |? Hwfl|]; subst.
    assert (map Json.dumps l = map Json.dumps l2) as Heq; [|by simpl; rewrite Heq].
    eapply map_related; [eassumption|].
    apply Forall_forall. intros x Hx y Hxy.
    rewrite Forall_forall in IH, Hwfl. by apply IH; [|apply Hwfl|].
  - (* dicts *)
    inversion Hwf as [| | | | | |? Hnd Hwfd]; subst.
    match goal with Hp : d ≡ₚ ?d', HF : Forall2 _ ?d' _ |- _ =>
      rename d' into dp; rename Hp into Hperm; rename HF into Hitems end.
    set (f := λ kv : string * value, (kv.1, Json.dumps kv.2)).
    assert (Json.sorted_items (map f d) = Json.sorted_items (map f d2)) as Heq;
      [|by simpl; fold f; rewrite Heq].
    transitivity (Json.sorted_items (map f dp)).
    + apply sorted_items_reorder.
      * by rewrite map_map.
      * by apply Permutation_map.
    + f_equal. eapply map_related; [eassumption|].
      rewrite Hperm in IH, Hwfd.
      apply Forall_forall. intros x Hx y [Hk Hv].
      rewrite Forall_forall in IH, Hwfd.
      unfold f. rewrite Hk. f_equal. by apply (IH x); [|apply (Hwfd x)|].
Qed.
End DumpsStable.

(** ** C9: the context hash and the cache key *)

Lemma sample_context_wf : wf_value (mission_context Sample.request).
Proof.
  apply wf_dict.
  - simpl. apply NoDup_cons. split; [|apply NoDup_singleton].
    intros Hin. by apply list_elem_of_singleton in Hin.
  - repeat constructor.
Qed.

Lemma sample_context_reordered :
  same_value (mission_context Sample.request) Sample.reordered_context.
Proof.
  eapply same_dict; [apply perm_swap|].
  repeat constructor.
Qed.

(** C9. Two mission contexts that hold the same keys and values, whatever
    the insertion order of their items, have the same context hash; with
    the same session id they get the same cache key, hence denote the same
    entry of every cache. *)
Theorem context_hash_stable `{PyRuntime} (context1 context2 : value) :
  wf_value context1 →
  same_value context1 context2 →
  _context_hash context1 = _context_hash context2 ∧
  ∀ (session : value) (cache : prediction_cache),
    _cache_key session (_context_hash context1)
      = _cache_key session (_context_hash context2) ∧
    cache !! _cache_key session (_context_hash context1)
      = cache !! _cache_key session (_context_hash context2).
Proof.
  intros Hwf Hsame.
  assert (_context_hash context1 = _context_hash context2) as Heq.
  { unfold _context_hash. by rewrite (dumps_same_value _ Hwf _ Hsame). }
  split; [done|]. intros session cache. by rewrite Heq.
Qed.

Lemma context_hash_stable_witness :
  wf_value (mission_context Sample.request) ∧
  same_value (mission_context Sample.request) Sample.reordered_context ∧
  @_context_hash Sample.runtime (mission_context Sample.request)
    = @_context_hash Sample.runtime Sample.reordered_context.
Proof.
  refine (conj sample_context_wf (conj sample_context_reordered _)).
  exact (proj1 (@context_hash_stable Sample.runtime _ _
                  sample_context_wf sample_context_reordered)).
Defined.

(** ** C1: the coordination score *)

(** C1 (amended). The coordination score is the weighted sum of the
    successes of the three sources with the fixed weights 0.3 (time
    presser), 0.3 (time liner) and 0.2 (Claude analysis), plus a fifth of
    the Claude confidence when present, capped at 1, all in binary64
    arithmetic; when the confidence is an [int] too large for a float the
    computation raises [OverflowError] instead. *)
Theorem coordination_score_fixed_weights
    (time_presser time_liner claude4 : value) (bonus : result float) :
  confidence_bonus claude4 bonus →
  _calculate_coordination_score time_presser time_liner claude4
    = (b ← bonus;
       Ok (Py.min
             (Spec.coordination_score source_weights
                [status_of time_presser; status_of time_liner; status_of claude4]
              + b)%float 1)).
Proof.
  intros Hbonus. unfold _calculate_coordination_score, status_of.
  destruct Hbonus as [claude4 Hc|d Hc Hget|d v n Hget Hnum].
  - rewrite Hc. cbn [mbind result_bind].
    by destruct (Py.truthy time_presser), (Py.truthy time_liner).
  - rewrite Hc. cbn [mbind result_bind Py.contains]. rewrite Hget.
    cbn [mbind result_bind].
    by destruct (Py.truthy time_presser), (Py.truthy time_liner).
  - assert (Py.truthy (VDict d) = true) as Hc by (by destruct d).
    rewrite Hc. cbn [mbind result_bind Py.contains Py.getitem]. rewrite Hget.
    cbn [mbind result_bind]. unfold Py.mul_float. rewrite Hnum.
    destruct (Py.to_float n) as [c|e]; cbn [mbind result_bind]; [|done].
    by destruct (Py.truthy time_presser), (Py.truthy time_liner).
Qed.

Lemma coordination_score_fixed_weights_witness :
  confidence_bonus (VDict [("confidence", VFloat 0.5)]) (Ok (0.5 * 0.2)%float) ∧
  _calculate_coordination_score (Sample.prediction 0.9) (Sample.prediction 0.7)
      (VDict [("confidence", VFloat 0.5)])
    = Ok (Py.min
            (Spec.coordination_score source_weights
               [Spec.Success; Spec.Success; Spec.Success] + 0.5 * 0.2)%float 1) ∧
  confidence_bonus (VDict [("confidence", VInt (10 ^ 400))]) (Raise OverflowError) ∧
  _calculate_coordination_score (Sample.prediction 0.9) (Sample.prediction 0.7)
      (VDict [("confidence", VInt (10 ^ 400))])
    = Raise OverflowError.
Proof.
  assert (confidence_bonus (VDict [("confidence", VFloat 0.5)]) (Ok (0.5 * 0.2)%float))
    as Hfloat
    by exact (bonus_confidence [("confidence", VFloat 0.5)] (VFloat 0.5)
                (Py.NFloat 0.5) eq_refl eq_refl).
  assert (confidence_bonus (VDict [("confidence", VInt (10 ^ 400))])
            (Raise OverflowError))
    as Hint
    by exact (bonus_confidence [("confidence", VInt (10 ^ 400))] (VInt (10 ^ 400))
                (Py.NInt (10 ^ 400)) eq_refl eq_refl).
  exact (conj Hfloat
          (conj (coordination_score_fixed_weights (Sample.prediction 0.9)
                   (Sample.prediction 0.7) _ _ Hfloat)
             (conj Hint
                (coordination_score_fixed_weights (Sample.prediction 0.9)
                   (Sample.prediction 0.7) _ _ Hint)))).
Defined.

(** C1 (as stated) fails: with the first two sources successful and the
    third one failed the score is 0.6; it is neither the 0.7 of the weights
    [0.4, 0.3, 0.3] (renormalised or not) nor what uniform weights over
    three or two backends give. *)
Lemma coordination_score_ignores_weight_map :
  _calculate_coordination_score (Sample.prediction 0.9) (Sample.prediction 0.7) VNone
    = Ok 0.6%float ∧
  Spec.coordination_score [0.4; 0.3; 0.3]%float
    [Spec.Success; Spec.Success; Spec.Timeout] = 0.7%float ∧
  (0.6 =? Spec.coordination_score (Spec.renormalized [0.4; 0.3; 0.3])
            [Spec.Success; Spec.Success; Spec.Timeout])%float = false ∧
  (0.6 =? Spec.coordination_score (Spec.uniform 3)
            [Spec.Success; Spec.Success; Spec.Timeout])%float = false ∧
  (0.6 =? Spec.coordination_score (Spec.uniform 2)
            [Spec.Success; Spec.Success])%float = false.
Proof. repeat split; vm_compute; reflexivity. Qed.

(** ** C8: the temporal coherence default *)

Lemma lacks_confidence_read (r : value) :
  lacks_confidence r = true →
  Py.truthy r = true ∧ confidence_read r = Ok (VFloat 0.5).
Proof.
  unfold lacks_confidence, confidence_read.
  destruct r as [| | | | | |d]; try done.
  intros [Htruthy Hmissing]%andb_true_iff. split; [done|].
  cbn [Py.get mbind result_bind].
  destruct (Py.dict_get d "prediction") as [[| | | | | |p]|]; try done.
  cbn [Py.get]. by destruct (Py.dict_get p "confidence").
Qed.

Lemma temporal_coherence_reads (time_presser time_liner : value) :
  Py.truthy time_presser = true →
  Py.truthy time_liner = true →
  _calculate_temporal_coherence time_presser time_liner
    = (tp_confidence ← confidence_read time_presser;
       tl_confidence ← confidence_read time_liner;
       difference ← Py.sub tp_confidence tl_confidence;
       coherence ← Py.float_sub 1 (Py.abs difference);
       Ok (Py.max 0 (Py.min 1 coherence))).
Proof.
  intros Htp Htl. unfold _calculate_temporal_coherence, confidence_read.
  rewrite Htp, Htl. cbn [negb orb].
  destruct (Py.get time_presser _ _) as [p1|]; cbn [mbind result_bind]; [|done].
  destruct (Py.get p1 _ _) as [c1|]; cbn [mbind result_bind]; [|done].
  by destruct (Py.get time_liner _ _) as [p2|]; cbn [mbind result_bind].
Qed.

(** C8 (amended). When fewer than two of the two backend results are
    successful (truthy), the temporal coherence is exactly 0.5.  A
    successful result in which the confidence is missing is not left out:
    it is scored exactly as a result that reports 0.5.  A confidence that
    is present but null makes the computation raise [TypeError]. *)
Theorem temporal_coherence_default (time_presser time_liner : value) :
  ((successes [time_presser; time_liner] < 2)%nat →
   _calculate_temporal_coherence time_presser time_liner = Ok 0.5%float) ∧
  (lacks_confidence time_presser = true →
   _calculate_temporal_coherence time_presser time_liner
     = _calculate_temporal_coherence (result_reporting (VFloat 0.5)) time_liner) ∧
  (lacks_confidence time_liner = true →
   _calculate_temporal_coherence time_presser time_liner
     = _calculate_temporal_coherence time_presser (result_reporting (VFloat 0.5))) ∧
  (Py.truthy time_presser = true → Py.truthy time_liner = true →
   ∀ confidence,
     (confidence_read time_presser = Ok VNone ∧
      confidence_read time_liner = Ok confidence) ∨
     (confidence_read time_presser = Ok confidence ∧
      confidence_read time_liner = Ok VNone) →
     _calculate_temporal_coherence time_presser time_liner = Raise TypeError).
Proof.
  split; [|split; [|split]].
  - unfold successes, _calculate_temporal_coherence.
    rewrite !filter_cons, filter_nil.
    destruct (Py.truthy time_presser), (Py.truthy time_liner);
      repeat case_decide; simpl; try done; lia.
  - intros [Htp Hread]%lacks_confidence_read.
    destruct (Py.truthy time_liner) eqn:Htl.
    + rewrite !temporal_coherence_reads by done. by rewrite Hread.
    + unfold _calculate_temporal_coherence. by rewrite Htp, Htl.
  - intros [Htl Hread]%lacks_confidence_read.
    destruct (Py.truthy time_presser) eqn:Htp.
    + rewrite !temporal_coherence_reads by done. by rewrite Hread.
    + unfold _calculate_temporal_coherence. by rewrite Htp.
  - intros Htp Htl confidence Hnull.
    rewrite temporal_coherence_reads by done.
    destruct Hnull as [[-> ->]|[-> ->]]; cbn [mbind result_bind]; [done|].
    unfold Py.sub. by destruct (Py.to_number confidence) as [[]|].
Qed.

Lemma temporal_coherence_default_witness :
  (successes [Sample.prediction 0.9; VNone] < 2)%nat ∧
  _calculate_temporal_coherence (Sample.prediction 0.9) VNone = Ok 0.5%float ∧
  lacks_confidence (VDict [("status", VStr "ok")]) = true ∧
  _calculate_temporal_coherence (Sample.prediction 0.9) (VDict [("status", VStr "ok")])
    = _calculate_temporal_coherence (Sample.prediction 0.9)
        (result_reporting (VFloat 0.5)) ∧
  confidence_read (result_reporting VNone) = Ok VNone ∧
  _calculate_temporal_coherence (result_reporting VNone) (Sample.prediction 0.9)
    = Raise TypeError.
Proof.
  assert (successes [Sample.prediction 0.9; VNone] < 2)%nat as Hlt
    by (vm_compute; lia).
  refine (conj Hlt (conj _ (conj eq_refl (conj _ (conj eq_refl _))))).
  - exact (proj1 (temporal_coherence_default (Sample.prediction 0.9) VNone) Hlt).
  - exact (proj1 (proj2 (proj2 (temporal_coherence_default (Sample.prediction 0.9)
                                  (VDict [("status", VStr "ok")])))) eq_refl).
  - exact (proj2 (proj2 (proj2 (temporal_coherence_default (result_reporting VNone)
                                  (Sample.prediction 0.9)))) eq_refl eq_refl
             (VFloat 0.9) (or_introl (conj eq_refl eq_refl))).
Defined.

(** C8 (as stated) fails: a successful result that reports no confidence
    is not left out, it is read as confidence 0.5.  Here only one result
    reports a confidence, and the coherence is 0.6. *)
Lemma temporal_coherence_counts_missing_confidence :
  (successes_with_confidence
     [Sample.prediction 0.9; VDict [("status", VStr "ok")]] < 2)%nat ∧
  _calculate_temporal_coherence (Sample.prediction 0.9) (VDict [("status", VStr "ok")])
    = Ok 0.6%float ∧
  (0.6 =? 0.5)%float = false.
Proof. split; [vm_compute; lia|]. split; vm_compute; reflexivity. Qed.

(** ** C6: input normalisation *)

(** C6 (amended). [normalize_input] returns for every input and never
    raises: a dict is returned as it is; a string that is not JSON, and
    any input that is neither a dict nor a string, is wrapped under the
    key "scenario" (the string itself, respectively [str(data)]); a JSON
    string yields the parsed document. *)
Theorem normalize_input_total `{PyRuntime} (data : value) :
  ∃ normalized,
    DrLucyFlightMemory.normalize_input data = Ok normalized ∧
    match data with
    | VDict _ => normalized = data
    | VStr s =>
        match json_loads s with
        | Ok parsed => normalized = parsed
        | Raise JSONDecodeError => normalized = scenario s
        | Raise _ => normalized = scenario "unknown"
        end
    | _ => normalized = scenario (Py.str data)
    end.
Proof.
  unfold DrLucyFlightMemory.normalize_input, scenario.
  destruct data as [| | | |s| |]; simpl; try by eexists.
  destruct (json_loads s) as [parsed|[]]; simpl; by eexists.
Qed.

(** C6 (as stated) fails: the fallback key is "scenario", not "raw". *)
Lemma normalize_input_wraps_under_scenario :
  @DrLucyFlightMemory.normalize_input Sample.runtime (VInt 42)
    = Ok (VDict [("scenario", VStr "42")]) ∧
  @DrLucyFlightMemory.normalize_input Sample.runtime (VInt 42)
    ≠ Ok (VDict [("raw", VStr "42")]) ∧
  @DrLucyFlightMemory.normalize_input Sample.runtime (VStr "not json")
    = Ok (VDict [("scenario", VStr "not json")]).
Proof. repeat split; vm_compute; congruence. Qed.

(** ** C3: the fan-out *)

Lemma call_dr_lucy_payload (self : PredictionPipelineController)
    (request : PredictionRequest) (reply : http_outcome) :
  fst (_call_dr_lucy self request reply)
    = Ok (backend_payload (dr_lucy_endpoint self) reply).
Proof.
  unfold _call_dr_lucy, backend_payload.
  destruct (configured (dr_lucy_endpoint self)); [|done].
  destruct reply as [status [body|e]|e]; simpl; [| |done];
    by destruct (status =? 200)%Z.
Qed.

Lemma call_dream_commander_payload (self : PredictionPipelineController)
    (request : PredictionRequest) (reply : http_outcome) :
  fst (_call_dream_commander self request reply)
    = Ok (dream_commander_payload self request reply).
Proof.
  unfold _call_dream_commander, dream_commander_payload, horizon_comparable,
    backend_payload.
  destruct (configured (dream_commander_endpoint self));
    destruct (Py.min_int _ _); try done.
  destruct reply as [status [body|e]|e]; simpl; [| |done];
    by destruct (status =? 200)%Z.
Qed.

Section ControllerFacts.
Context `{PyRuntime}.
Variable self : PredictionPipelineController.

(** The response that [compose_response] builds carries the two backend
    payloads, whatever else happens. *)
Lemma compose_response_payloads (w : world) (request : PredictionRequest)
    (response : PipelineResponse) :
  fst (compose_response self w request) = Ok response →
  response_session_id response = session_id request ∧
  time_presser_prediction response
    = backend_payload (dr_lucy_endpoint self) (dr_lucy_reply w) ∧
  time_liner_prediction response
    = dream_commander_payload self request (dream_commander_reply w) ∧
  pipeline_status response
    = (if Py.truthy (time_presser_prediction response)
          || Py.truthy (time_liner_prediction response)
       then "completed" else "failed").
Proof.
  unfold compose_response.
  pose proof (call_dr_lucy_payload self request (dr_lucy_reply w)) as Hl.
  pose proof (call_dream_commander_payload self request (dream_commander_reply w)) as Hd.
  destruct (_call_dr_lucy self request (dr_lucy_reply w)) as [lucy_task lucy_events].
  destruct (_call_dream_commander self request (dream_commander_reply w))
    as [dream_task dream_events].
  simpl in Hl, Hd. subst lucy_task dream_task. simpl gathered.
  destruct (if Py.truthy (claude4_integration request) then _ else _)
    as [claude4_call claude_events].
  simpl. destruct claude4_call as [claude4_result|e]; simpl; [|done].
  case_scores. intros [= <-]. done.
Qed.

(** [coordinate_predictions] never lets an exception escape. *)
Lemma coordinate_predictions_returns (w : world) (request : PredictionRequest)
    (cache : prediction_cache) :
  ∃ response cache',
    fst (coordinate_predictions self w request cache) = Ok (response, cache').
Proof.
  unfold coordinate_predictions.
  destruct (cache_lookup _ _ _ _) as [cached|]; [by eexists _, _|].
  destruct (compose_response self w request) as [[response|e] events];
    simpl; by eexists _, _.
Qed.

End ControllerFacts.

(** C3 (amended). Each of the two backends contributes exactly one entry
    to the response: the decoded body of its 200 reply, and [None] for
    every failure (endpoint not configured, other status, undecodable
    body, transport error, timeout, and for Dream Commander a strategic
    horizon that cannot be compared, so that no request is sent).  No
    backend call raises, and the request as a whole always returns a
    response. *)
Theorem fan_out_captures_failures `{PyRuntime} (self : PredictionPipelineController)
    (w : world) (request : PredictionRequest) (cache : prediction_cache) :
  fst (_call_dr_lucy self request (dr_lucy_reply w))
    = Ok (backend_payload (dr_lucy_endpoint self) (dr_lucy_reply w)) ∧
  fst (_call_dream_commander self request (dream_commander_reply w))
    = Ok (dream_commander_payload self request (dream_commander_reply w)) ∧
  (∀ response,
     fst (compose_response self w request) = Ok response →
     time_presser_prediction response
       = backend_payload (dr_lucy_endpoint self) (dr_lucy_reply w) ∧
     time_liner_prediction response
       = dream_commander_payload self request (dream_commander_reply w)) ∧
  ∃ response cache',
    fst (coordinate_predictions self w request cache) = Ok (response, cache').
Proof.
  split; [apply call_dr_lucy_payload|].
  split; [apply call_dream_commander_payload|].
  split; [|apply coordinate_predictions_returns].
  intros response Hr.
  by destruct (compose_response_payloads self w request response Hr) as (? & ? & ? & ?).
Qed.

(** C3 (as stated) fails: a timeout, a 500 reply and a refused connection
    all leave the same [None] in the backend's entry (and the same
    response), so the entry carries neither a class nor a detail. *)
Lemma fan_out_drops_failure_class :
  fst (_call_dr_lucy Sample.controller Sample.request (Failed TimeoutError)) = Ok VNone ∧
  fst (_call_dr_lucy Sample.controller Sample.request
         (Replied 500 (Ok (VDict [("error", VStr "internal")])))) = Ok VNone ∧
  fst (_call_dr_lucy Sample.controller Sample.request
         (Failed (OtherError "connection refused"))) = Ok VNone ∧
  @compose_response Sample.runtime Sample.controller
      (with_dr_lucy_reply (Failed TimeoutError) (Sample.world_ok "t0" 0 1)) Sample.request
    = @compose_response Sample.runtime Sample.controller
        (with_dr_lucy_reply (Replied 500 (Ok (VDict [("error", VStr "internal")])))
           (Sample.world_ok "t0" 0 1)) Sample.request.
Proof. repeat split. Qed.

(** ** C7: the secondary analysis *)

Lemma claude_calls_app (events1 events2 : list event) :
  claude_calls (events1 ++ events2) = (claude_calls events1 + claude_calls events2)%nat.
Proof. unfold claude_calls. by rewrite List.filter_app, length_app. Qed.



Section SecondaryAnalysis.
Context `{PyRuntime}.
Variable self : PredictionPipelineController.





End SecondaryAnalysis.



(** ** C4, C5, C10: the cache *)

Section CacheFacts.
Context `{PyRuntime}.
Variable self : PredictionPipelineController.

Lemma cache_lookup_Some (now : Q) (key : string) (cache : prediction_cache)
    (response : PipelineResponse) :
  cache_lookup self now key cache = Some response ↔
  ∃ cache_time,
    cache !! key = Some (response, cache_time) ∧
    (now - cache_time < inject_Z (cache_ttl self))%Q.
Proof.
  unfold cache_lookup. destruct (cache !! key) as [[cached cache_time]|]; split.
  - destruct (QMicromega.Qlt_bool _ _) eqn:Hlt; [|done].
    intros [= <-]. exists cache_time. split; [done|].
    by apply QMicromega.Qlt_bool_iff.
  - intros (t & [= <- <-] & Hlt).
    apply QMicromega.Qlt_bool_iff in Hlt. by rewrite Hlt.
  - done.
  - by intros (t & ? & _).
Qed.

Lemma cache_lookup_expired (now : Q) (key : string) (cache : prediction_cache)
    (response : PipelineResponse) (cache_time : Q) :
  cache !! key = Some (response, cache_time) →
  (cache_time + inject_Z (cache_ttl self) < now)%Q →
  cache_lookup self now key cache = None.
Proof.
  intros Hkey Hlate.
  destruct (cache_lookup self now key cache) as [r|] eqn:Hlookup; [|done].
  apply cache_lookup_Some in Hlookup as (t & Hkey' & Hfresh).
  rewrite Hkey in Hkey'. injection Hkey' as <- <-. lra.
Qed.


Lemma coordinate_predictions_miss (w : world) (request : PredictionRequest)
    (cache : prediction_cache) :
  cache_lookup self (lookup_time w) (request_key request) cache = None →
  coordinate_predictions self w request cache
    = (store_or_recover w request (fst (compose_response self w request)) cache,
       snd (compose_response self w request)).
Proof.
  unfold coordinate_predictions, request_key. intros ->.
  by destruct (compose_response self w request).
Qed.

End CacheFacts.

(** C4. A cached response is returned only while the lookup time does not
    exceed the insertion time plus the TTL; once it does, the lookup is a
    miss and the request runs the whole pipeline again. *)
Theorem cache_entry_expires `{PyRuntime} (self : PredictionPipelineController)
    (w : world) (request : PredictionRequest) (cache : prediction_cache)
    (cached : PipelineResponse) (cache_time : Q) :
  cache !! request_key request = Some (cached, cache_time) →
  (∀ returned,
     cache_lookup self (lookup_time w) (request_key request) cache = Some returned →
     returned = cached ∧
     (lookup_time w <= cache_time + inject_Z (cache_ttl self))%Q) ∧
  ((cache_time + inject_Z (cache_ttl self) < lookup_time w)%Q →
   cache_lookup self (lookup_time w) (request_key request) cache = None ∧
   coordinate_predictions self w request cache
     = (store_or_recover w request (fst (compose_response self w request)) cache,
        snd (compose_response self w request))).
Proof.
  intros Hkey. split.
  - intros returned Hhit.
    apply cache_lookup_Some in Hhit as (t & Hkey' & Hfresh).
    rewrite Hkey in Hkey'. injection Hkey' as <- <-. split; [done|lra].
  - intros Hlate.
    pose proof (cache_lookup_expired self _ _ _ _ _ Hkey Hlate) as Hmiss.
    split; [done|]. by apply coordinate_predictions_miss.
Qed.

(** C5 (amended). On a cache miss, every response that is composed
    without an exception is stored under the request's key with the store
    time, whether its status is "completed" or, when no backend succeeded,
    "failed". *)
Theorem cache_stores_every_composed_response `{PyRuntime}
    (self : PredictionPipelineController) (w : world) (request : PredictionRequest)
    (cache : prediction_cache) (response : PipelineResponse) :
  cache_lookup self (lookup_time w) (request_key request) cache = None →
  fst (compose_response self w request) = Ok response →
  fst (coordinate_predictions self w request cache)
    = Ok (response, <[request_key request := (response, store_time w)]> cache) ∧
  pipeline_status response
    = (if Py.truthy (time_presser_prediction response)
          || Py.truthy (time_liner_prediction response)
       then "completed" else "failed").
Proof.
  intros Hmiss Hcomposed. split.
  - rewrite coordinate_predictions_miss by done. simpl.
    unfold store_or_recover. by rewrite Hcomposed.
  - by destruct (compose_response_payloads self w request response Hcomposed)
      as (_ & _ & _ & ?).
Qed.

(** C10. When the pipeline raises after a cache miss, the caller gets the
    "error" response (no predictions, both scores 0.0) and the cache is
    the one the request found. *)
Theorem pipeline_exception_leaves_cache `{PyRuntime}
    (self : PredictionPipelineController) (w : world) (request : PredictionRequest)
    (cache : prediction_cache) (e : exn) :
  cache_lookup self (lookup_time w) (request_key request) cache = None →
  fst (compose_response self w request) = Raise e →
  ∃ response,
    fst (coordinate_predictions self w request cache) = Ok (response, cache) ∧
    response_session_id response = session_id request ∧
    pipeline_status response = "error" ∧
    time_presser_prediction response = VNone ∧
    time_liner_prediction response = VNone ∧
    claude4_analysis response = VNone ∧
    coordination_score response = 0.0%float ∧
    temporal_coherence response = 0.0%float.
Proof.
  intros Hmiss Hraise.
  exists (error_response (session_id request) (utc_now w)).
  split; [|done].
  rewrite coordinate_predictions_miss by done. simpl.
  unfold store_or_recover. by rewrite Hraise.
Qed.

Lemma one_entry_cache_lookup :
  one_entry_cache !! @request_key Sample.runtime Sample.request
    = Some (stale_response, 0%Q).
Proof. apply lookup_singleton_eq. Qed.

Lemma cache_entry_expires_witness :
  one_entry_cache !! @request_key Sample.runtime Sample.request
    = Some (stale_response, 0%Q) ∧
  (0 + inject_Z (cache_ttl short_ttl_controller) < 150)%Q ∧
  @cache_lookup short_ttl_controller 150%Q
    (@request_key Sample.runtime Sample.request) one_entry_cache = None.
Proof.
  assert (0 + inject_Z (cache_ttl short_ttl_controller) < 150)%Q as Hlate
    by (vm_compute; reflexivity).
  refine (conj one_entry_cache_lookup (conj Hlate _)).
  exact (proj1 (proj2 (@cache_entry_expires Sample.runtime short_ttl_controller
                         (Sample.world_ok "t1" 150 151) Sample.request one_entry_cache
                         stale_response 0%Q one_entry_cache_lookup) Hlate)).
Defined.

Lemma sample_miss (w : world) :
  cache_lookup Sample.controller (lookup_time w)
    (@request_key Sample.runtime Sample.request) ∅ = None.
Proof. unfold cache_lookup. by rewrite lookup_empty. Qed.

Lemma cache_stores_every_composed_response_witness :
  cache_lookup Sample.controller 0%Q (@request_key Sample.runtime Sample.request) ∅
    = None ∧
  ∃ response,
    fst (@compose_response Sample.runtime Sample.controller
           (Sample.world_down "t0" 0 1) Sample.request) = Ok response ∧
    fst (@coordinate_predictions Sample.runtime Sample.controller
           (Sample.world_down "t0" 0 1) Sample.request ∅)
      = Ok (response,
            <[@request_key Sample.runtime Sample.request := (response, 1%Q)]> ∅) ∧
    pipeline_status response = "failed".
Proof.
  split; [exact (sample_miss (Sample.world_down "t0" 0 1))|].
  eexists. split; [vm_compute; reflexivity|].
  exact (@cache_stores_every_composed_response Sample.runtime Sample.controller
           (Sample.world_down "t0" 0 1) Sample.request ∅ _
           (sample_miss (Sample.world_down "t0" 0 1)) eq_refl).
Defined.

(** C5 (as stated) fails: when no backend succeeded the "failed" response
    is stored in the cache all the same. *)
Lemma failed_composition_is_cached :
  ∃ response cache',
    fst (@coordinate_predictions Sample.runtime Sample.controller
           (Sample.world_down "t0" 0 1) Sample.request ∅) = Ok (response, cache') ∧
    Py.truthy (time_presser_prediction response) = false ∧
    Py.truthy (time_liner_prediction response) = false ∧
    pipeline_status response = "failed" ∧
    cache' !! @request_key Sample.runtime Sample.request = Some (response, 1%Q).
Proof.
  eexists _, _. split; [rewrite coordinate_predictions_miss by apply sample_miss; reflexivity|].
  repeat split.
Qed.

Lemma pipeline_exception_leaves_cache_witness :
  cache_lookup Sample.controller 0%Q (@request_key Sample.runtime Sample.request) ∅
    = None ∧
  fst (@compose_response Sample.runtime Sample.controller
         (Sample.world_odd "t0" 0 1) Sample.request) = Raise AttributeError ∧
  ∃ response,
    fst (@coordinate_predictions Sample.runtime Sample.controller
           (Sample.world_odd "t0" 0 1) Sample.request ∅) = Ok (response, ∅) ∧
    response_session_id response = VStr "s1" ∧
    pipeline_status response = "error" ∧
    time_presser_prediction response = VNone ∧
    time_liner_prediction response = VNone ∧
    claude4_analysis response = VNone ∧
    coordination_score response = 0.0%float ∧
    temporal_coherence response = 0.0%float.
Proof.
  refine (conj (sample_miss (Sample.world_odd "t0" 0 1)) (conj eq_refl _)).
  exact (@pipeline_exception_leaves_cache Sample.runtime Sample.controller
           (Sample.world_odd "t0" 0 1) Sample.request ∅ AttributeError
           (sample_miss (Sample.world_odd "t0" 0 1)) eq_refl).
Defined.

(** ** C2: callers with the same fingerprint *)


Section Callers.
Context `{PyRuntime}.
Variable self : PredictionPipelineController.






End Callers.




(** * Further properties of the code *)

(** ** Further properties of the scores *)

(** X1. A coordination score that is returned is at most 1.0, unless it
    is a NaN. *)
Theorem coordination_score_at_most_one (time_presser time_liner claude4 : value)
    (score : float) :
  _calculate_coordination_score time_presser time_liner claude4 = Ok score →
  (score <=? 1)%float = true ∨ is_nan score = true.
Proof.
  unfold _calculate_coordination_score. cbn.
  destruct (if Py.truthy claude4 then _ else _) as [s|e]; cbn; [|done].
  intros [= <-]. unfold Py.min.
  destruct (1 <? s)%float eqn:Hlt; [by left|].
  destruct (not_ltb_leb s 1 Hlt) as [?|[?|?]]; [by left|by right|done].
Qed.

Lemma coordination_score_at_most_one_witness :
  _calculate_coordination_score (Sample.prediction 0.9) (Sample.prediction 0.7)
      (VDict [("confidence", VFloat 0.8)]) = Ok 0.9600000000000001%float ∧
  ((0.9600000000000001 <=? 1)%float = true ∨ is_nan 0.9600000000000001 = true) ∧
  _calculate_coordination_score (Sample.prediction 0.9) (Sample.prediction 0.7)
      (VDict [("confidence", VFloat nan)]) = Ok nan.
Proof.
  refine (conj eq_refl (conj _ eq_refl)).
  exact (coordination_score_at_most_one (Sample.prediction 0.9) (Sample.prediction 0.7)
           (VDict [("confidence", VFloat 0.8)]) 0.9600000000000001%float eq_refl).
Defined.

(** X2. The coherence is clamped into [0, 1]. *)
Theorem temporal_coherence_bounds (time_presser time_liner : value) (coherence : float) :
  _calculate_temporal_coherence time_presser time_liner = Ok coherence →
  (0 <=? coherence)%float = true ∧ (coherence <=? 1)%float = true.
Proof.
  unfold _calculate_temporal_coherence.
  destruct (negb _ || negb _); [by intros [= <-]|].
  destruct (Py.get time_presser _ _) as [tp|?]; cbn; [|done].
  destruct (Py.get tp _ _) as [tpc|?]; cbn; [|done].
  destruct (Py.get time_liner _ _) as [tl|?]; cbn; [|done].
  destruct (Py.get tl _ _) as [tlc|?]; cbn; [|done].
  destruct (Py.sub tpc tlc) as [d|?]; cbn; [|done].
  destruct (Py.float_sub _ _) as [c|?]; cbn; [|done].
  intros [= <-]. unfold Py.max, Py.min.
  destruct (c <? 1)%float eqn:Hc.
  - destruct (0 <? c)%float eqn:H0; [|done]. split; by apply ltb_leb.
  - done.
Qed.

Lemma get_raises (v : value) (k : string) (default : value) (e : exn) :
  Py.get v k default = Raise e → e = AttributeError.
Proof. destruct v; cbn; congruence. Qed.

Lemma to_float_raises (n : Py.number) (e : exn) :
  Py.to_float n = Raise e → e = OverflowError.
Proof.
  destruct n as [z|f]; cbn; [|done]. unfold Py.float_of_int.
  destruct (binary_normalize _ _ _ _ _); congruence.
Qed.

(** The distance of two confidences does not depend on their order. *)
Lemma confidence_distance_symmetric (a b : value) :
  (d ← Py.sub a b; Ok (Py.abs d)) = (d ← Py.sub b a; Ok (Py.abs d)).
Proof.
  unfold Py.sub.
  destruct (Py.to_number a) as [[x|x]|], (Py.to_number b) as [[y|y]|]; try done; cbn.
  - f_equal. f_equal. lia.
  - destruct (Py.float_of_int x) as [fx|e] eqn:Hx; cbn.
    + by rewrite abs_sub_sym.
    + by apply (to_float_raises (Py.NInt x)) in Hx as ->.
  - destruct (Py.float_of_int y) as [fy|e] eqn:Hy; cbn.
    + by rewrite abs_sub_sym.
    + by apply (to_float_raises (Py.NInt y)) in Hy as ->.
  - by rewrite abs_sub_sym.
Qed.

Lemma confidence_read_raises (r : value) (e : exn) :
  confidence_read r = Raise e → e = AttributeError.
Proof.
  unfold confidence_read.
  destruct (Py.get r _ _) as [p|e1] eqn:Hp; cbn.
  - apply get_raises.
  - intros [= <-]. by apply get_raises in Hp.
Qed.

(** X3. The coherence does not depend on which backend is which. *)
Theorem temporal_coherence_symmetric (time_presser time_liner : value) :
  same_outcome (_calculate_temporal_coherence time_presser time_liner)
               (_calculate_temporal_coherence time_liner time_presser).
Proof.
  destruct (Py.truthy time_presser) eqn:Htp, (Py.truthy time_liner) eqn:Htl.
  - rewrite !temporal_coherence_reads by done.
    destruct (confidence_read time_presser) as [a|e1] eqn:H1,
             (confidence_read time_liner) as [b|e2] eqn:H2;
      cbn [mbind result_bind same_outcome];
      try apply confidence_read_raises in H1;
      try apply confidence_read_raises in H2; subst; try reflexivity.
    pose proof (confidence_distance_symmetric a b) as Hsym.
    destruct (Py.sub a b) as [d1|e1], (Py.sub b a) as [d2|e2];
      cbn in Hsym; try discriminate; cbn [mbind result_bind].
    + injection Hsym as ->.
      destruct (Py.float_sub 1 (Py.abs d2)); cbn; reflexivity.
    + by injection Hsym as ->.
  - unfold _calculate_temporal_coherence. by rewrite Htp, Htl.
  - unfold _calculate_temporal_coherence. by rewrite Htp, Htl.
  - unfold _calculate_temporal_coherence. by rewrite Htp, Htl.
Qed.

Lemma reported_confidence_read (r v : value) :
  reported_confidence r = Some v →
  Py.truthy r = true ∧ confidence_read r = Ok v.
Proof.
  unfold reported_confidence, confidence_read. destruct r as [| | | | | |d]; try done.
  destruct (Py.dict_get d "prediction") as [p|] eqn:Hp; [|done].
  destruct p as [| | | | | |p]; try done.
  destruct (Py.dict_get p "confidence") as [c|] eqn:Hc; [|done].
  intros Hv. assert (c = v) as -> by (destruct c; congruence).
  split; [by destruct d|].
  cbn [Py.get mbind result_bind]. rewrite Hp.
  cbn [Py.get mbind result_bind]. by rewrite Hc.
Qed.

(** The same number, taken from itself, leaves a coherence of exactly
    1.0: a NaN that the subtraction produces is dropped by [min]. *)
Lemma coherence_of_equal_confidences (v : value) :
  is_Some (Py.to_number v) →
  (difference ← Py.sub v v;
   coherence ← Py.float_sub 1 (Py.abs difference);
   Ok (Py.max 0 (Py.min 1 coherence))) = Ok 1%float.
Proof.
  intros [n Hn]. unfold Py.sub. rewrite Hn. destruct n as [z|f].
  - cbn [mbind result_bind]. by rewrite Z.sub_diag.
  - cbn [Py.to_float mbind result_bind Py.abs Py.float_sub].
    by destruct (sub_diag f) as [-> | ->].
Qed.

(** X4. When both results report a confidence, the coherence is computed
    from these two values alone: one minus their distance, clamped into
    [0, 1]; when they report the same number, it is exactly 1.0. *)
Theorem temporal_coherence_of_confidences (time_presser time_liner v1 v2 : value) :
  reported_confidence time_presser = Some v1 →
  reported_confidence time_liner = Some v2 →
  _calculate_temporal_coherence time_presser time_liner
    = (difference ← Py.sub v1 v2;
       coherence ← Py.float_sub 1 (Py.abs difference);
       Ok (Py.max 0 (Py.min 1 coherence))) ∧
  (v1 = v2 → is_Some (Py.to_number v1) →
   _calculate_temporal_coherence time_presser time_liner = Ok 1%float).
Proof.
  intros H1 H2.
  apply reported_confidence_read in H1 as (Ht1 & Hc1).
  apply reported_confidence_read in H2 as (Ht2 & Hc2).
  rewrite temporal_coherence_reads, Hc1, Hc2 by done. cbn [mbind result_bind].
  split; [done|]. intros <- Hnumber. by apply coherence_of_equal_confidences.
Qed.

Lemma temporal_coherence_of_confidences_witness :
  reported_confidence (Sample.prediction 0.8) = Some (VFloat 0.8) ∧
  _calculate_temporal_coherence (Sample.prediction 0.8) (Sample.prediction 0.8)
    = Ok 1%float ∧
  _calculate_temporal_coherence (Sample.prediction 0.9) (Sample.prediction 0.7)
    = Ok 0.7999999999999999%float ∧
  _calculate_temporal_coherence (Sample.prediction 1e-17) (Sample.prediction 0)
    = Ok 1%float.
Proof.
  refine (conj eq_refl (conj _ (conj _ eq_refl))).
  - exact (proj2 (temporal_coherence_of_confidences
                    (Sample.prediction 0.8) (Sample.prediction 0.8)
                    (VFloat 0.8) (VFloat 0.8) eq_refl eq_refl)
             eq_refl (ex_intro _ (Py.NFloat 0.8) eq_refl)).
  - exact (proj1 (temporal_coherence_of_confidences
                    (Sample.prediction 0.9) (Sample.prediction 0.7)
                    (VFloat 0.9) (VFloat 0.7) eq_refl eq_refl)).
Defined.

(** ** Further properties of the cache *)

Lemma string_length_app (a b : string) :
  String.length (a +:+ b) = (String.length a + String.length b)%nat.
Proof. induction a as [|x a IH]; simpl; [done|]. by f_equal. Qed.

Lemma string_app_inj_suffix (a c b d : string) :
  String.length b = String.length d → a +:+ b = c +:+ d → a = c ∧ b = d.
Proof.
  revert c. induction a as [|x a IH]; intros [|y c] Hlen Heq.
  - done.
  - apply (f_equal String.length) in Heq.
    rewrite !string_length_app in Heq. cbn [String.length] in Heq. lia.
  - apply (f_equal String.length) in Heq.
    rewrite !string_length_app in Heq. cbn [String.length] in Heq. lia.
  - cbn [String.append] in Heq. injection Heq as -> Heq.
    destruct (IH c Hlen Heq) as [-> ->]. done.
Qed.

(** The text of the session id can be read back from a key whose digest
    length is known. *)
Lemma cache_key_session `{PyRuntime} (session1 session2 : value)
    (digest1 digest2 : string) :
  String.length digest1 = String.length digest2 →
  _cache_key session1 digest1 = _cache_key session2 digest2 →
  Py.str session1 = Py.str session2.
Proof.
  unfold _cache_key. intros Hlen Heq.
  apply (inj (String.app "prediction:")) in Heq.
  by apply string_app_inj_suffix in Heq as [-> _];
    [|rewrite !string_length_app, Hlen].
Qed.

(** X5. With digests of one length (an MD5 hex digest has 32
    characters), two cache keys are equal exactly when the digests are
    equal and the session ids have the same text under [str]: the key
    does not tell the session id 1 from the session id "1". *)
Theorem cache_key_injective `{PyRuntime} (session1 session2 : value)
    (digest1 digest2 : string) :
  String.length digest1 = String.length digest2 →
  _cache_key session1 digest1 = _cache_key session2 digest2 ↔
  Py.str session1 = Py.str session2 ∧ digest1 = digest2.
Proof.
  intros Hlen. split.
  - unfold _cache_key. intros Heq.
    apply (inj (String.app "prediction:")) in Heq.
    apply string_app_inj_suffix in Heq as [-> Heq];
      [|by rewrite !string_length_app, Hlen].
    by apply (inj (String.app ":")) in Heq as ->.
  - unfold _cache_key. by intros [-> ->].
Qed.

Lemma cache_key_injective_witness :
  String.length "d41d8cd98f00b204e9800998ecf8427e"
    = String.length "d41d8cd98f00b204e9800998ecf8427e" ∧
  VInt 1 ≠ VStr "1" ∧
  @_cache_key Sample.runtime (VInt 1) "d41d8cd98f00b204e9800998ecf8427e"
    = @_cache_key Sample.runtime (VStr "1") "d41d8cd98f00b204e9800998ecf8427e".
Proof.
  refine (conj eq_refl (conj _ _)); [discriminate|].
  exact (proj2 (@cache_key_injective Sample.runtime (VInt 1) (VStr "1")
                  "d41d8cd98f00b204e9800998ecf8427e"
                  "d41d8cd98f00b204e9800998ecf8427e" eq_refl)
           (conj eq_refl eq_refl)).
Defined.

Section CacheGrowth.
Context `{PyRuntime}.
Variable self : PredictionPipelineController.

(** What a request does to the cache: nothing, or one insertion under
    its own key. *)
Lemma coordinate_predictions_cache (w : world) (request : PredictionRequest)
    (cache cache' : prediction_cache) (response : PipelineResponse) :
  fst (coordinate_predictions self w request cache) = Ok (response, cache') →
  cache' = cache ∨
  (cache_lookup self (lookup_time w) (request_key request) cache = None ∧
   fst (compose_response self w request) = Ok response ∧
   cache' = <[request_key request := (response, store_time w)]> cache).
Proof.
  unfold coordinate_predictions. fold (request_key request).
  destruct (cache_lookup _ _ _ _) as [cached|] eqn:Hlookup.
  - intros [= <- <-]. by left.
  - destruct (compose_response self w request) as [[composed|e] events]; cbn.
    + intros [= <- <-]. right. done.
    + intros [= <- <-]. by left.
Qed.

(** X6. A request never evicts: entries under other keys are untouched,
    every key that was cached stays cached, and the cache grows by at
    most one entry. *)
Theorem cache_only_grows (w : world) (request : PredictionRequest)
    (cache cache' : prediction_cache) (response : PipelineResponse) :
  fst (coordinate_predictions self w request cache) = Ok (response, cache') →
  (∀ key, key ≠ request_key request → cache' !! key = cache !! key) ∧
  (∀ key, is_Some (cache !! key) → is_Some (cache' !! key)) ∧
  (size cache ≤ size cache' ≤ S (size cache))%nat.
Proof.
  intros Hrun.
  destruct (coordinate_predictions_cache w request cache cache' response Hrun)
    as [->|(_ & _ & ->)].
  - repeat split; [done|lia..].
  - split; [|split].
    + intros key Hne. by rewrite lookup_insert_ne.
    + intros key Hsome. destruct (decide (request_key request = key)) as [<-|Hne].
      * rewrite lookup_insert_eq. by eexists.
      * by rewrite lookup_insert_ne.
    + destruct (cache !! request_key request) as [old|] eqn:Hold.
      * rewrite map_size_insert_Some by done. lia.
      * rewrite map_size_insert_None by done. lia.
Qed.

(** X7. Cache round trip: the response a request stored is what a later
    request with the same key gets back, as long as it looks up less than
    the TTL after the store; the later request makes no call and leaves
    the cache as it is. *)
Theorem cache_round_trip (w1 w2 : world) (request1 request2 : PredictionRequest)
    (cache : prediction_cache) (response : PipelineResponse) :
  cache_lookup self (lookup_time w1) (request_key request1) cache = None →
  fst (compose_response self w1 request1) = Ok response →
  request_key request2 = request_key request1 →
  (lookup_time w2 - store_time w1 < inject_Z (cache_ttl self))%Q →
  ∃ cache',
    fst (coordinate_predictions self w1 request1 cache) = Ok (response, cache') ∧
    coordinate_predictions self w2 request2 cache' = (Ok (response, cache'), []).
Proof.
  intros Hmiss Hcomposed Hkey Hfresh.
  exists (<[request_key request1 := (response, store_time w1)]> cache). split.
  - rewrite coordinate_predictions_miss by done. cbn.
    unfold store_or_recover. by rewrite Hcomposed.
  - unfold coordinate_predictions. fold (request_key request2). rewrite Hkey.
    assert (cache_lookup self (lookup_time w2) (request_key request1)
              (<[request_key request1 := (response, store_time w1)]> cache)
            = Some response) as ->; [|done].
    apply cache_lookup_Some. exists (store_time w1).
    by rewrite lookup_insert_eq.
Qed.

(** X8. The session id of every response served has the same text under
    [str] as the caller's (a response served from the cache may have been
    composed for a session id of another type), and the cache stays
    sound, provided digests have one length. *)
Theorem served_response_is_the_callers (digest_length : nat) (w : world)
    (request : PredictionRequest) (cache cache' : prediction_cache)
    (response : PipelineResponse) :
  (∀ text, String.length (md5_hexdigest text) = digest_length) →
  cache_sound digest_length cache →
  fst (coordinate_predictions self w request cache) = Ok (response, cache') →
  Py.str (response_session_id response) = Py.str (session_id request) ∧
  cache_sound digest_length cache'.
Proof.
  intros Hdigest Hsound Hrun. split.
  - revert Hrun. unfold coordinate_predictions. fold (request_key request).
    destruct (cache_lookup _ _ _ _) as [cached|] eqn:Hlookup.
    + intros [= <- <-].
      apply cache_lookup_Some in Hlookup as (t & Hkey & _).
      destruct (Hsound _ _ _ Hkey) as (digest & Hlen & Heq).
      unfold request_key in Heq. symmetry in Heq.
      apply cache_key_session in Heq as Hs; [done|].
      unfold _context_hash. by rewrite Hlen, Hdigest.
    + destruct (compose_response self w request) as [[composed|e] events] eqn:Hc; cbn.
      * intros [= <- <-].
        assert (fst (compose_response self w request) = Ok composed) as Hcomposed
          by (by rewrite Hc).
        by destruct (compose_response_payloads self w request composed Hcomposed)
          as (-> & _).
      * by intros [= <- <-].
  - destruct (coordinate_predictions_cache w request cache cache' response Hrun)
      as [->|(_ & Hcomposed & ->)]; [done|].
    intros key r t. destruct (decide (request_key request = key)) as [<-|Hne].
    + rewrite lookup_insert_eq. intros [= <- <-].
      exists (_context_hash (mission_context request)).
      split; [apply Hdigest|].
      by destruct (compose_response_payloads self w request response Hcomposed)
        as (-> & _).
    + rewrite lookup_insert_ne by done. apply Hsound.
Qed.

End CacheGrowth.

Lemma substring_length (n : nat) (s : string) :
  (n ≤ String.length s)%nat → String.length (String.substring 0 n s) = n.
Proof.
  revert s. induction n as [|n IH]; intros [|x s] Hn; simpl in *; try done; try lia.
  f_equal. apply IH. lia.
Qed.

Lemma padded_digest_length (text : string) :
  String.length (SampleMore.padded_digest text) = 32%nat.
Proof.
  unfold SampleMore.padded_digest. apply substring_length.
  rewrite string_length_app. simpl. lia.
Qed.

Lemma numbered_cache_sound :
  @cache_sound SampleMore.padded_runtime 32 (@numbered_cache SampleMore.padded_runtime).
Proof.
  unfold numbered_cache.
  intros key response t [<- [= <- <-]]%lookup_singleton_Some.
  eexists. split; [apply padded_digest_length|]. reflexivity.
Qed.

Lemma numbered_cache_hit :
  fst (@coordinate_predictions SampleMore.padded_runtime Sample.controller
         (Sample.world_ok "t1" 10 11)
         (SampleMore.with_session_id (VStr "1") Sample.request)
         (@numbered_cache SampleMore.padded_runtime))
    = Ok (SampleMore.numbered_response, @numbered_cache SampleMore.padded_runtime).
Proof.
  assert (cache_lookup Sample.controller (lookup_time (Sample.world_ok "t1" 10 11))
            (@request_key SampleMore.padded_runtime
               (SampleMore.with_session_id (VStr "1") Sample.request))
            (@numbered_cache SampleMore.padded_runtime)
          = Some SampleMore.numbered_response) as Hhit.
  { apply cache_lookup_Some. exists 0%Q. split; [|done].
    unfold numbered_cache. apply lookup_singleton_eq. }
  unfold coordinate_predictions. unfold request_key in Hhit. by rewrite Hhit.
Qed.

Lemma served_response_is_the_callers_witness :
  (∀ text, String.length (md5_hexdigest (PyRuntime := SampleMore.padded_runtime) text)
           = 32%nat) ∧
  @cache_sound SampleMore.padded_runtime 32 (@numbered_cache SampleMore.padded_runtime) ∧
  response_session_id SampleMore.numbered_response = VInt 1 ∧
  session_id (SampleMore.with_session_id (VStr "1") Sample.request) = VStr "1" ∧
  @Py.str SampleMore.padded_runtime (response_session_id SampleMore.numbered_response)
    = @Py.str SampleMore.padded_runtime
        (session_id (SampleMore.with_session_id (VStr "1") Sample.request)).
Proof.
  refine (conj padded_digest_length (conj numbered_cache_sound (conj eq_refl (conj eq_refl _)))).
  exact (proj1 (@served_response_is_the_callers SampleMore.padded_runtime
                  Sample.controller 32 (Sample.world_ok "t1" 10 11)
                  (SampleMore.with_session_id (VStr "1") Sample.request)
                  numbered_cache _ SampleMore.numbered_response
                  padded_digest_length numbered_cache_sound numbered_cache_hit)).
Defined.

(** ** Properties of the fan-out and of the readiness check *)

Section FanOut.
Context `{PyRuntime}.
Variable self : PredictionPipelineController.

Lemma posted_urls_app (events1 events2 : list event) :
  posted_urls (events1 ++ events2) = (posted_urls events1 ++ posted_urls events2)%list.
Proof. unfold posted_urls. apply omap_app. Qed.

(** The calls of the secondary analysis: one call of the Claude API when
    it is enabled and has a client, and never a post. *)
Lemma claude4_analysis_events (request : PredictionRequest) (tp tl : value)
    (reply : claude_outcome) (now : string) :
  snd (_claude4_analysis self request tp tl reply now)
    = if claude4_enabled self && claude4_client self
      then [MessagesCreate (claude4_model self)] else [].
Proof.
  unfold _claude4_analysis.
  by destruct (claude4_enabled self), (claude4_client self).
Qed.

Lemma call_dr_lucy_events (request : PredictionRequest) (reply : http_outcome) :
  ∃ json,
    snd (_call_dr_lucy self request reply)
      = match configured (dr_lucy_endpoint self) with
        | Some url => [HttpPost (url +:+ "/predict") json]
        | None => []
        end.
Proof. unfold _call_dr_lucy. destruct (configured _); [by eexists|by exists VNone]. Qed.

Lemma call_dream_commander_events (request : PredictionRequest) (reply : http_outcome) :
  ∃ json,
    snd (_call_dream_commander self request reply)
      = match configured (dream_commander_endpoint self) with
        | Some url =>
            if horizon_comparable self request
            then [HttpPost (url +:+ "/predict") json] else []
        | None => []
        end.
Proof.
  unfold _call_dream_commander, horizon_comparable.
  destruct (configured _); [|by exists VNone].
  destruct (Py.min_int _ _); [by eexists|by exists VNone].
Qed.

(** The calls of one run, in the order in which the model lists them. *)
Lemma compose_response_events (w : world) (request : PredictionRequest) :
  ∃ lucy_json dream_json,
    snd (compose_response self w request)
      = ((match configured (dr_lucy_endpoint self) with
          | Some url => [HttpPost (url +:+ "/predict") lucy_json]
          | None => []
          end ++
          match configured (dream_commander_endpoint self) with
          | Some url =>
              if horizon_comparable self request
              then [HttpPost (url +:+ "/predict") dream_json] else []
          | None => []
          end) ++
         (if Py.truthy (claude4_integration request)
             && (claude4_enabled self && claude4_client self)
          then [MessagesCreate (claude4_model self)] else []))%list.
Proof.
  destruct (call_dr_lucy_events request (dr_lucy_reply w)) as [lucy_json Hl].
  destruct (call_dream_commander_events request (dream_commander_reply w))
    as [dream_json Hd].
  exists lucy_json, dream_json. unfold compose_response.
  destruct (_call_dr_lucy self request (dr_lucy_reply w)) as [lucy_task lucy_events].
  destruct (_call_dream_commander self request (dream_commander_reply w))
    as [dream_task dream_events].
  cbn [snd] in Hl, Hd. rewrite <- Hl, <- Hd.
  destruct (Py.truthy (claude4_integration request)).
  - pose proof (claude4_analysis_events request (gathered lucy_task) (gathered dream_task)
                  (claude_reply w) (claude_utc_now w)) as Hc.
    destruct (_claude4_analysis _ _ _ _ _ _) as [c4 claude_events].
    cbn [snd andb] in *. by rewrite Hc, app_assoc.
  - cbn [snd andb]. by rewrite app_assoc.
Qed.

(** X9. Whatever the order in which the two backend tasks run, one run of
    the pipeline posts exactly once to the [/predict] route of every
    backend whose endpoint is set and not empty (for Dream Commander:
    unless its request cannot be built); it calls the Claude API once
    when the request asks for the analysis and the analysis is enabled
    and has a client, and not at all otherwise; and it makes no other
    call. *)
Theorem fan_out_posts_once_per_configured_backend (w : world)
    (request : PredictionRequest) :
  posted_urls (snd (compose_response self w request)) ≡ₚ expected_posts self request ∧
  claude_calls (snd (compose_response self w request))
    = (if Py.truthy (claude4_integration request)
          && (claude4_enabled self && claude4_client self)
       then 1 else 0)%nat ∧
  length (snd (compose_response self w request))
    = (length (expected_posts self request)
       + claude_calls (snd (compose_response self w request)))%nat.
Proof.
  destruct (compose_response_events w request) as (lucy_json & dream_json & ->).
  unfold expected_posts.
  rewrite posted_urls_app, claude_calls_app, !length_app, posted_urls_app, claude_calls_app.
  destruct (configured (dr_lucy_endpoint self)),
           (configured (dream_commander_endpoint self)),
           (horizon_comparable self request),
           (Py.truthy (claude4_integration request) && _); done.
Qed.

(** X10. A response is "completed" only if some configured backend answered
    200 with a truthy body; with no backend configured no request ever
    completes. *)
Theorem completed_needs_a_backend (w : world) (request : PredictionRequest)
    (response : PipelineResponse) :
  fst (compose_response self w request) = Ok response →
  pipeline_status response = "completed" →
  (∃ url body,
     configured (dr_lucy_endpoint self) = Some url ∧
     dr_lucy_reply w = Replied 200 (Ok body) ∧ Py.truthy body = true) ∨
  (∃ url body,
     configured (dream_commander_endpoint self) = Some url ∧
     dream_commander_reply w = Replied 200 (Ok body) ∧ Py.truthy body = true).
Proof.
  intros Hcomposed Hstatus.
  destruct (compose_response_payloads self w request response Hcomposed)
    as (_ & Hlucy & Hdream & Hs).
  rewrite Hs in Hstatus.
  destruct (Py.truthy (time_presser_prediction response)) eqn:Htp.
  - left. rewrite Hlucy in Htp. unfold backend_payload in Htp.
    destruct (configured (dr_lucy_endpoint self)) as [url|]; [|done].
    destruct (dr_lucy_reply w) as [status [body|?]|?]; try done.
    destruct (status =? 200)%Z eqn:Hst; [|done].
    apply Z.eqb_eq in Hst as ->. by exists url, body.
  - destruct (Py.truthy (time_liner_prediction response)) eqn:Htl; [|done].
    right. rewrite Hdream in Htl. unfold dream_commander_payload, backend_payload in Htl.
    destruct (horizon_comparable self request); [|done].
    destruct (configured (dream_commander_endpoint self)) as [url|]; [|done].
    destruct (dream_commander_reply w) as [status [body|?]|?]; try done.
    destruct (status =? 200)%Z eqn:Hst; [|done].
    apply Z.eqb_eq in Hst as ->. by exists url, body.
Qed.

(** X11. The readiness check and the fan-out disagree on the empty string: an
    endpoint set to "" counts as ready, yet it is never called and its
    entry in every fresh response is [None]. *)
Theorem ready_endpoint_may_never_be_called (now : string) (w : world)
    (request : PredictionRequest) :
  dr_lucy_endpoint self = Some "" →
  Routes.is_not_None (dream_commander_endpoint self) = true →
  snd (Routes.readiness_check self now) = 200%Z ∧
  _call_dr_lucy self request (dr_lucy_reply w) = (Ok VNone, []) ∧
  ∀ response,
    fst (compose_response self w request) = Ok response →
    time_presser_prediction response = VNone.
Proof.
  intros Hlucy Hdream. split; [|split].
  - unfold Routes.readiness_check. by rewrite Hlucy, Hdream.
  - unfold _call_dr_lucy. by rewrite Hlucy.
  - intros response Hcomposed.
    destruct (compose_response_payloads self w request response Hcomposed)
      as (_ & -> & _).
    unfold backend_payload. by rewrite Hlucy.
Qed.

(** X12. When the readiness check answers 503, no fresh response holds both
    predictions. *)
Theorem not_ready_misses_a_prediction (now : string) (w : world)
    (request : PredictionRequest) (response : PipelineResponse) :
  snd (Routes.readiness_check self now) = 503%Z →
  fst (compose_response self w request) = Ok response →
  time_presser_prediction response = VNone ∨ time_liner_prediction response = VNone.
Proof.
  unfold Routes.readiness_check. intros Hready Hcomposed.
  destruct (compose_response_payloads self w request response Hcomposed)
    as (_ & -> & -> & _).
  unfold dream_commander_payload, backend_payload.
  destruct (dr_lucy_endpoint self) as [lucy|]; [|by left].
  destruct (dream_commander_endpoint self) as [dream|]; [done|right].
  by destruct (horizon_comparable self request).
Qed.

End FanOut.

(** A strategic horizon that is null, or a string, cannot be compared
    with the configured one: Dream Commander gets no request and its
    entry is [None], while Dr Lucy is called as usual. *)
Lemma uncomparable_horizon_sends_nothing :
  horizon_comparable Sample.controller
    (SampleMore.with_strategic_horizon VNone Sample.request) = false ∧
  horizon_comparable Sample.controller
    (SampleMore.with_strategic_horizon (VStr "30") Sample.request) = false ∧
  _call_dream_commander Sample.controller
      (SampleMore.with_strategic_horizon (VStr "30") Sample.request)
      (dream_commander_reply (Sample.world_ok "t0" 0 1))
    = (Ok VNone, []) ∧
  posted_urls
    (snd (@compose_response Sample.runtime Sample.controller (Sample.world_ok "t0" 0 1)
            (SampleMore.with_strategic_horizon (VStr "30") Sample.request)))
    = ["http://dr-lucy/predict"].
Proof. repeat split. Qed.

(** ** Properties of the Claude reply parser *)

Lemma index_ge (n m : nat) (s1 s2 : string) :
  String.index n s1 s2 = Some m → (n ≤ m)%nat.
Proof.
  revert n m. induction s2 as [|b s2 IH]; intros [|n] m; simpl; try done; try lia.
  destruct (String.index n s1 s2) as [m'|] eqn:Hi; [|done].
  intros [= <-]. apply IH in Hi. lia.
Qed.

(** The first occurrence at or after [n] is what [index] finds. *)
Lemma index_first (n m : nat) (s1 s2 : string) :
  s1 ≠ "" → (n ≤ m)%nat →
  String.substring m (String.length s1) s2 = s1 →
  (∀ p, (n ≤ p < m)%nat → String.substring p (String.length s1) s2 ≠ s1) →
  String.index n s1 s2 = Some m.
Proof.
  intros Hne Hnm Hat Hbefore.
  destruct (String.index n s1 s2) as [m'|] eqn:Hi.
  - f_equal. pose proof (index_ge _ _ _ _ Hi) as Hge.
    destruct (Nat.lt_trichotomy m' m) as [Hlt|[->|Hgt]]; [|done|].
    + destruct (Hbefore m'); [lia|]. by eapply String.index_correct1.
    + destruct (String.index_correct2 _ _ _ _ Hi m); done.
  - destruct (String.index_correct3 n m s1 s2); done.
Qed.

Lemma substring_shift (a b : string) (p n : nat) :
  String.substring (String.length a + p) n (a +:+ b) = String.substring p n b.
Proof. induction a as [|x a IH]; simpl; [done|]. apply IH. Qed.

Lemma substring_prefix (a b : string) :
  String.substring 0 (String.length a) (a +:+ b) = a.
Proof. induction a as [|x a IH]; simpl; [by destruct b|]. by rewrite IH. Qed.

Lemma substring_other_char (c : ascii) (a b s : string) (p n : nat) :
  free_of c a = true → (p < String.length a)%nat →
  String.substring p (S n) (a +:+ b) ≠ String c s.
Proof.
  revert p. induction a as [|x a IH]; intros p Hfree Hp; simpl in *; [lia|].
  apply andb_true_iff in Hfree as [Hx Hfree].
  destruct p as [|p].
  - intros [= -> _]. by rewrite Ascii.eqb_refl in Hx.
  - apply IH; [done|lia].
Qed.

Lemma string_app_assoc (a b c : string) : (a +:+ b) +:+ c = a +:+ b +:+ c.
Proof.
  induction a as [|x a IH]; [done|].
  change (String x ((a +:+ b) +:+ c) = String x (a +:+ b +:+ c)). by f_equal.
Qed.

Lemma find_fence (prefix rest : string) :
  free_of "`" prefix = true →
  String.index 0 "```json" (prefix +:+ "```json" +:+ rest)
    = Some (String.length prefix).
Proof.
  intros Hfree. apply index_first; [done|lia| |].
  - rewrite <- (Nat.add_0_r (String.length prefix)), substring_shift.
    apply (substring_prefix "```json").
  - intros p [_ Hp]. by apply substring_other_char.
Qed.

Lemma find_closing_fence (head body rest : string) :
  free_of "`" body = true →
  String.index (String.length head) "```" (head +:+ body +:+ "```" +:+ rest)
    = Some (String.length head + String.length body)%nat.
Proof.
  intros Hfree. apply index_first; [done|lia| |].
  - rewrite <- string_app_assoc, <- string_length_app.
    rewrite <- (Nat.add_0_r (String.length (head +:+ body))), substring_shift.
    apply (substring_prefix "```").
  - intros p [Hge Hlt].
    replace p with (String.length head + (p - String.length head))%nat by lia.
    rewrite substring_shift. apply substring_other_char; [done|lia].
Qed.

Lemma slice_middle `{PyRuntime} (head body rest : string) :
  slice (head +:+ body +:+ rest) (Z.of_nat (String.length head))
    (Z.of_nat (String.length head + String.length body)) = body.
Proof.
  unfold slice. rewrite !string_length_app.
  destruct (Z.ltb_spec (Z.of_nat (String.length head + String.length body)) 0);
    [lia|].
  rewrite !Z.min_l by lia.
  destruct (Z.ltb_spec (Z.of_nat (String.length head))
              (Z.of_nat (String.length head + String.length body))) as [Hlt|Hge].
  - rewrite Nat2Z.id.
    replace (Z.to_nat _) with (String.length body) by lia.
    rewrite <- (Nat.add_0_r (String.length head)), substring_shift.
    apply substring_prefix.
  - destruct body; [done|]. simpl in Hge. lia.
Qed.

Section ReplyParser.
Context `{PyRuntime}.
Variable self : PredictionPipelineController.

(** X14. A reply that holds one fenced json block, with no backtick before
    the block or inside it, is parsed from exactly the text between the
    fences. *)
Theorem fenced_reply_is_parsed (request : PredictionRequest) (tp tl : value)
    (prefix body suffix now : string) :
  claude4_enabled self = true →
  claude4_client self = true →
  free_of "`" prefix = true →
  free_of "`" body = true →
  fst (_claude4_analysis self request tp tl
         (ClaudeText (prefix +:+ "```json" +:+ body +:+ "```" +:+ suffix)) now)
    = analysis_of body (prefix +:+ "```json" +:+ body +:+ "```" +:+ suffix) now.
Proof.
  intros Henabled Hclient Hprefix Hbody.
  unfold _claude4_analysis, analysis_of. rewrite Henabled, Hclient.
  cbn [negb orb fst mbind result_bind].
  set (text := prefix +:+ "```json" +:+ body +:+ "```" +:+ suffix).
  pose proof (find_fence prefix (body +:+ "```" +:+ suffix) Hprefix) as Hopen.
  fold text in Hopen.
  unfold Py.is_substring, find. change (Z.to_nat 0) with 0%nat. rewrite !Hopen.
  pose proof (find_closing_fence (prefix +:+ "```json") body suffix Hbody) as Hclose.
  rewrite string_app_assoc in Hclose. fold text in Hclose.
  rewrite string_length_app in Hclose. cbn [String.length] in Hclose.
  replace (Z.to_nat (Z.of_nat (String.length prefix) + 7))
    with (String.length prefix + 7)%nat by lia.
  rewrite Hclose.
  pose proof (slice_middle (prefix +:+ "```json") body ("```" +:+ suffix)) as Hslice.
  rewrite string_app_assoc in Hslice. fold text in Hslice.
  rewrite string_length_app in Hslice. cbn [String.length] in Hslice.
  replace (Z.of_nat (String.length prefix) + 7)%Z
    with (Z.of_nat (String.length prefix + 7)) by lia.
  by rewrite Hslice.
Qed.

End ReplyParser.

Lemma index_none (n : nat) (s1 s2 : string) :
  (∀ m, (n ≤ m)%nat → String.substring m (String.length s1) s2 ≠ s1) →
  String.index n s1 s2 = None.
Proof.
  intros Hnowhere. destruct (String.index n s1 s2) as [m|] eqn:Hi; [|done].
  destruct (Hnowhere m); [by eapply index_ge|by eapply String.index_correct1].
Qed.

Lemma substring_beyond (s : string) (p n : nat) :
  (String.length s ≤ p)%nat → String.substring p n s = "".
Proof.
  revert p. induction s as [|x s IH]; intros [|p] Hp; simpl in *;
    try done; try lia.
  - by destruct n.
  - apply IH. lia.
Qed.

Lemma string_app_nil_r (s : string) : s +:+ "" = s.
Proof.
  induction s as [|x s IH]; [done|].
  change (String x (s +:+ "") = String x s). by f_equal.
Qed.

Lemma find_no_closing_fence (head body : string) :
  free_of "`" body = true →
  String.index (String.length head) "```" (head +:+ body) = None.
Proof.
  intros Hfree. apply index_none. intros m Hm.
  replace m with (String.length head + (m - String.length head))%nat by lia.
  rewrite substring_shift.
  destruct (decide (m - String.length head < String.length body)%nat) as [Hin|Hout].
  - rewrite <- (string_app_nil_r body). by apply substring_other_char.
  - by rewrite substring_beyond by lia.
Qed.

Lemma substring_all (s : string) : String.substring 0 (String.length s) s = s.
Proof. induction s as [|x s IH]; simpl; [done|]. by rewrite IH. Qed.

(** A slice that stops one character before the end: the text from the
    place on, without its last character. *)
Lemma slice_to_last `{PyRuntime} (head body : string) :
  slice (head +:+ body) (Z.of_nat (String.length head)) (-1)
    = text_prefix (text_length body - 1) body.
Proof.
  unfold slice. rewrite string_length_app. change (-1 <? 0)%Z with true.
  cbn match. rewrite Z.min_l by lia. rewrite Nat2Z.id.
  replace (Z.to_nat (Z.of_nat (String.length head + String.length body)
                     - Z.of_nat (String.length head)))
    with (String.length body) by lia.
  rewrite <- (Nat.add_0_r (String.length head)), substring_shift, substring_all.
  f_equal. lia.
Qed.

Section ReplyParserEdges.
Context `{PyRuntime}.
Variable self : PredictionPipelineController.

(** X15. A reply whose json fence is never closed loses its last character:
    what is parsed is the text after the opening fence without its final
    character. *)
Theorem unclosed_fence_drops_last_character (request : PredictionRequest)
    (tp tl : value) (prefix body now : string) :
  claude4_enabled self = true →
  claude4_client self = true →
  free_of "`" prefix = true →
  free_of "`" body = true →
  fst (_claude4_analysis self request tp tl
         (ClaudeText (prefix +:+ "```json" +:+ body)) now)
    = analysis_of (text_prefix (text_length body - 1) body)
        (prefix +:+ "```json" +:+ body) now.
Proof.
  intros Henabled Hclient Hprefix Hbody.
  unfold _claude4_analysis, analysis_of. rewrite Henabled, Hclient.
  cbn [negb orb fst mbind result_bind].
  set (text := prefix +:+ "```json" +:+ body).
  pose proof (find_fence prefix body Hprefix) as Hopen. fold text in Hopen.
  unfold Py.is_substring, find. change (Z.to_nat 0) with 0%nat. rewrite !Hopen.
  pose proof (find_no_closing_fence (prefix +:+ "```json") body Hbody) as Hclose.
  rewrite string_app_assoc in Hclose. fold text in Hclose.
  rewrite string_length_app in Hclose. cbn [String.length] in Hclose.
  replace (Z.to_nat (Z.of_nat (String.length prefix) + 7))
    with (String.length prefix + 7)%nat by lia.
  rewrite Hclose.
  pose proof (slice_to_last (prefix +:+ "```json") body) as Hslice.
  rewrite string_app_assoc in Hslice. fold text in Hslice.
  rewrite string_length_app in Hslice. cbn [String.length] in Hslice.
  replace (Z.of_nat (String.length prefix) + 7)%Z
    with (Z.of_nat (String.length prefix + 7)) by lia.
  by rewrite Hslice.
Qed.

(** X16. A reply that is plain text, not JSON, still counts as an analysis
    with confidence 0.8: in binary64 the coordination score is then
    0.36000000000000004, 0.66 or 0.9600000000000001, by the number of
    backends that succeeded. *)
Theorem plain_text_reply_scores (request : PredictionRequest)
    (time_presser time_liner : value) (text now : string) :
  claude4_enabled self = true →
  claude4_client self = true →
  Py.is_substring "```json" text = false →
  json_loads text = Raise JSONDecodeError →
  ∃ analysis score,
    fst (_claude4_analysis self request time_presser time_liner (ClaudeText text) now)
      = Ok analysis ∧
    Py.get analysis "analysis_text" VNone = Ok (VStr text) ∧
    _calculate_coordination_score time_presser time_liner analysis = Ok score ∧
    score = plain_text_score (successes [time_presser; time_liner]).
Proof.
  intros Henabled Hclient Hfence Hjson.
  unfold _claude4_analysis. rewrite Henabled, Hclient.
  cbn [negb orb fst mbind result_bind]. rewrite Hfence, Hjson.
  unfold _calculate_coordination_score, successes.
  rewrite !filter_cons, filter_nil.
  destruct (Py.truthy time_presser), (Py.truthy time_liner);
    repeat case_decide; try done;
    eexists _, _; (split; [reflexivity|]); (split; [reflexivity|]);
    (split; [reflexivity|]); reflexivity.
Qed.

End ReplyParserEdges.

(** ** Properties of the Dr Lucy prediction service *)

Section DrLucyFacts.
Context `{PyRuntime}.

(** X17. [extract_scenario_text] never raises; a string comes back unchanged,
    and the result is always a string unless the input is a dict whose
    "description" is not one, which is returned as it is. *)
Theorem extract_scenario_text_shape (scenario_input : value) :
  ∃ text,
    DrLucyPrediction.extract_scenario_text scenario_input = Ok text ∧
    (∀ s, scenario_input = VStr s → text = VStr s) ∧
    ((∃ s, text = VStr s) ∨
     (∃ d, scenario_input = VDict d ∧ Py.dict_get d "description" = Some text)).
Proof.
  unfold DrLucyPrediction.extract_scenario_text.
  destruct scenario_input as [| | | |s| |d]; cbn;
    try (eexists; split; [done|]; split; [by intros ? [=]|]; left; by eexists).
  - exists (VStr s). split; [done|]. split; [by intros ? [= ->]|]. left. by eexists.
  - destruct (Py.dict_get d "description") as [description|] eqn:Hd; cbn.
    + exists description. split; [done|]. split; [done|]. right. by exists d.
    + destruct (Py.dict_get d "scenario"); cbn;
        (eexists; split; [done|]; split; [done|]; left; by eexists).
Qed.

(** What [any] finds: [true] exactly when some outcome has a
    probability above the threshold. *)
Lemma any_above_spec (threshold : float) (outcomes : list value) (found : bool) :
  DrLucyPrediction.any_above threshold outcomes = Ok found →
  (found = true ↔
   Exists (λ o, ∃ v, Py.getitem o "probability" = Ok v ∧
                     Py.gt_float v threshold = Ok true) outcomes).
Proof.
  revert found. induction outcomes as [|o rest IH]; intros found; cbn.
  - intros [= <-]. split; [done|]. by intros ?%Exists_nil.
  - destruct (Py.getitem o "probability") as [v|] eqn:Hv; cbn; [|done].
    destruct (Py.gt_float v threshold) as [[]|] eqn:Hgt; cbn; [| |done].
    + intros [= <-]. split; [|done]. intros _. apply Exists_cons_hd. by exists v.
    + intros Hrest. rewrite (IH _ Hrest). split.
      * by apply Exists_cons_tl.
      * intros [(v' & Hv' & Hgt')|Hin]%Exists_cons; [|done].
        rewrite Hv in Hv'. injection Hv' as <-. congruence.
Qed.

(** X18. The recommendations always start with a verdict, and the verdict is
    "high confidence" exactly when some outcome has a probability above
    0.8; between zero and three pairs of actions follow. *)
Theorem recommendations_lead_with_verdict (scenario context : value)
    (outcomes actions : list value) :
  DrLucyPrediction._generate_recommendations scenario context outcomes = Ok actions →
  ∃ verdict rest,
    actions = VStr verdict :: rest ∧
    (length rest ≤ 6)%nat ∧
    (verdict = "Proceed with high confidence - success probability excellent" ∨
     verdict = "Proceed with caution - monitor key risk factors") ∧
    (verdict = "Proceed with high confidence - success probability excellent" ↔
     Exists (λ o, ∃ v, Py.getitem o "probability" = Ok v ∧
                       Py.gt_float v 0.8 = Ok true) outcomes).
Proof.
  unfold DrLucyPrediction._generate_recommendations.
  destruct (DrLucyPrediction.any_above _ outcomes) as [confident|] eqn:Hany;
    cbn [mbind result_bind]; [|done].
  apply any_above_spec in Hany.
  destruct (DrLucyPrediction.lower_of scenario) as [sl|]; cbn [mbind result_bind]; [|done].
  destruct (DrLucyPrediction.lower_of context) as [cl|]; cbn [mbind result_bind]; [|done].
  intros [= <-].
  destruct confident, (Py.is_substring "quantum" sl), (Py.is_substring "temporal" sl),
    (Py.is_substring "integration" cl); cbn;
    eexists _, _; (split; [reflexivity|]); (split; [cbn; lia|]);
    (split; [auto|]); rewrite <- Hany; split; congruence.
Qed.

End DrLucyFacts.

(** Runs the next statement of a [try] body: either it raises and the
    body is over, or it yields a value the rest goes on with. *)
Ltac next_statement :=
  match goal with
  | |- context [mbind _ ?r] =>
      let Hs := fresh "Hstep" in
      destruct r eqn:Hs; cbn [mbind result_bind catch]
  end.

Section DrLucyPredict.
Context `{PyRuntime}.

Lemma generate_outcomes_head (scenario context : value) (scores : list float)
    (outcomes : list value) :
  DrLucyPrediction._generate_outcomes scenario context scores = Ok outcomes →
  ∃ p shown rest,
    scores !! 0%nat = Some p ∧
    DrLucyPrediction.prefix_of 50 scenario = Ok shown ∧
    outcomes =
      VDict [("outcome_type", VStr "success");
             ("probability", VFloat p);
             ("factors", VList [VStr "neural_network_analysis";
                                VStr "flight_memory_integration"]);
             ("description",
                VStr ("Successful completion of " +:+ Py.str shown +:+ "..."))]
      :: rest ∧
    (length rest ≤ 2)%nat ∧
    Forall (λ o, ∃ q, Py.getitem o "probability" = Ok (VFloat q) ∧ q ∈ scores) outcomes.
Proof.
  unfold DrLucyPrediction._generate_outcomes, DrLucyPrediction.score_at.
  destruct (scores !! 0%nat) as [p|] eqn:Hs0; cbn [mbind result_bind]; [|done].
  destruct (DrLucyPrediction.prefix_of 50 scenario) as [shown|];
    cbn [mbind result_bind]; [|done].
  destruct (DrLucyPrediction.lower_of scenario) as [sl|]; cbn [mbind result_bind]; [|done].
  assert (∀ i q, scores !! i = Some q → q ∈ scores) as Hin
    by (intros i q Hq; by eapply list_elem_of_lookup_2).
  destruct (Py.is_substring "quantum" sl);
    [destruct (scores !! 1%nat) as [q1|] eqn:Hs1; cbn [mbind result_bind]; [|done]|];
    (destruct (Py.is_substring "temporal" sl || Py.is_substring "time" sl);
     [destruct (scores !! 2%nat) as [q2|] eqn:Hs2; cbn [mbind result_bind]; [|done]|]);
    cbn [mbind result_bind]; intros [= <-];
    eexists _, _, _; (split; [done|]); (split; [done|]);
    (split; [reflexivity|]); (split; [cbn; lia|]);
    repeat (apply Forall_cons; split; [eexists; split; [reflexivity|]; eauto|]);
    apply Forall_nil; exact I.
Qed.

Lemma generate_recommendations_head (scenario context : value)
    (outcomes actions : list value) :
  DrLucyPrediction._generate_recommendations scenario context outcomes = Ok actions →
  ∃ verdict rest, actions = VStr verdict :: rest.
Proof.
  unfold DrLucyPrediction._generate_recommendations.
  destruct (DrLucyPrediction.any_above _ outcomes) as [confident|];
    cbn [mbind result_bind]; [|done].
  destruct (DrLucyPrediction.lower_of scenario) as [sl|]; cbn [mbind result_bind]; [|done].
  destruct (DrLucyPrediction.lower_of context) as [cl|]; cbn [mbind result_bind]; [|done].
  intros [= <-].
  destruct confident, (Py.is_substring "quantum" sl), (Py.is_substring "temporal" sl),
    (Py.is_substring "integration" cl); by eexists _, _.
Qed.

(** X19. Every outcome that is generated takes its probability from the
    confidence scores; the first one is always the "success" outcome with
    the first score, and at most two more follow. *)
Theorem outcomes_use_the_scores (scenario context : value) (scores : list float)
    (outcomes : list value) :
  DrLucyPrediction._generate_outcomes scenario context scores = Ok outcomes →
  ∃ first rest p,
    outcomes = first :: rest ∧
    (length rest ≤ 2)%nat ∧
    scores !! 0%nat = Some p ∧
    Py.getitem first "outcome_type" = Ok (VStr "success") ∧
    Py.getitem first "probability" = Ok (VFloat p) ∧
    Forall (λ o, ∃ q, Py.getitem o "probability" = Ok (VFloat q) ∧ q ∈ scores) outcomes.
Proof.
  intros Hgen.
  destruct (generate_outcomes_head _ _ _ _ Hgen)
    as (p & shown & rest & Hs0 & _ & -> & Hlen & Hall).
  by eexists _, rest, p.
Qed.

Lemma predict_answers (w : lucy_world) (request_data : value) :
  ∃ document outcome outcomes action actions,
    DrLucyPrediction.predict w request_data = Ok (VDict document) ∧
    Py.dict_get document "predicted_outcomes" = Some (VList (outcome :: outcomes)) ∧
    Py.dict_get document "recommended_actions" = Some (VList (action :: actions)).
Proof.
  unfold DrLucyPrediction.predict.
  repeat (next_statement; [|by eexists _, _, _, _, _]).
  match goal with Hg : DrLucyPrediction._generate_outcomes _ _ _ = Ok _ |- _ =>
    destruct (generate_outcomes_head _ _ _ _ Hg) as (? & ? & ? & _ & _ & -> & _) end.
  match goal with Hg : DrLucyPrediction._generate_recommendations _ _ _ = Ok _ |- _ =>
    destruct (generate_recommendations_head _ _ _ _ Hg) as (? & ? & ->) end.
  by eexists _, _, _, _, _.
Qed.

End DrLucyPredict.

Section DrLucyEdges.
Context `{PyRuntime}.

(** X20. A request that is a string holding a JSON document other than an
    object (a list, a number, ...) always gets the fallback prediction:
    the parsed document has no [get]. *)
Theorem json_non_object_request_falls_back (w : lucy_world) (s : string)
    (parsed : value) :
  json_loads s = Ok parsed →
  (∀ d, parsed ≠ VDict d) →
  DrLucyPrediction.predict w (VStr s)
    = Ok (DrLucyPrediction.fallback_prediction (utcnow w) AttributeError).
Proof.
  intros Hparsed Hshape.
  unfold DrLucyPrediction.predict, DrLucyFlightMemory.normalize_input.
  rewrite Hparsed. cbn [catch catch_json_decode mbind result_bind].
  destruct parsed; try done. by destruct (Hshape d).
Qed.

(** X21. A scenario that mentions "time" but not "temporal" gets the temporal
    acceleration outcome, yet none of the temporal recommendations: the
    two generators test different words. *)
Theorem time_scenario_gets_no_temporal_action (s c : string) (p0 p1 p2 : float)
    (scores : list float) :
  Py.is_substring "time" (lower s) = true →
  Py.is_substring "temporal" (lower s) = false →
  ∃ outcomes,
    DrLucyPrediction._generate_outcomes (VStr s) (VStr c) (p0 :: p1 :: p2 :: scores)
      = Ok outcomes ∧
    Exists (λ o, Py.getitem o "outcome_type" = Ok (VStr "temporal_acceleration"))
      outcomes ∧
    ∃ actions,
      DrLucyPrediction._generate_recommendations (VStr s) (VStr c) outcomes
        = Ok actions ∧
      VStr "Activate temporal compression systems gradually" ∉ actions.
Proof.
  intros Htime Htemporal.
  unfold DrLucyPrediction._generate_outcomes, DrLucyPrediction._generate_recommendations.
  cbn [DrLucyPrediction.score_at DrLucyPrediction.prefix_of DrLucyPrediction.lower_of
       lookup list_lookup mbind result_bind].
  rewrite Htime, Htemporal. cbn [orb].
  destruct (Py.is_substring "quantum" (lower s)),
           (Py.is_substring "integration" (lower c));
    cbn [mbind result_bind app DrLucyPrediction.any_above Py.getitem Py.dict_get
         String.eqb Ascii.eqb Bool.eqb Py.gt_float Py.to_number];
    eexists; (split; [reflexivity|]);
    (split; [repeat (first [by apply Exists_cons_hd | apply Exists_cons_tl])|]);
    cbn [mbind result_bind app DrLucyPrediction.any_above Py.getitem Py.dict_get
         String.eqb Ascii.eqb Bool.eqb Py.gt_float Py.to_number];
    repeat match goal with
    | |- context [(?a <? ?b)%float] => destruct (a <? b)%float
    end; cbn [mbind result_bind app];
    eexists; (split; [reflexivity|]);
    rewrite !not_elem_of_cons; repeat split; try done; apply not_elem_of_nil.
Qed.

End DrLucyEdges.

Section DrLucyPlainText.
Context `{PyRuntime}.

Lemma memory_references_head (now : Z) (s c : string) :
  ∃ references,
    DrLucyPrediction._generate_memory_references now (VStr s) (VStr c)
      = Ok (VStr ("flight_mem_" +:+ Py.int_repr now) :: references).
Proof.
  unfold DrLucyPrediction._generate_memory_references.
  cbn [DrLucyPrediction.lower_of mbind result_bind].
  destruct (Py.is_substring "quantum" (lower s)), (Py.is_substring "ai" (lower s)),
    (Py.is_substring "ai" (lower c)),
    (Py.is_substring "temporal" (lower s) || Py.is_substring "time" (lower s));
    cbn [mbind result_bind app]; by eexists.
Qed.

Lemma generate_outcomes_total (s : string) (context : value) (p0 p1 p2 : float)
    (scores : list float) :
  ∃ outcomes,
    DrLucyPrediction._generate_outcomes (VStr s) context (p0 :: p1 :: p2 :: scores)
      = Ok outcomes.
Proof.
  unfold DrLucyPrediction._generate_outcomes.
  cbn [DrLucyPrediction.score_at DrLucyPrediction.prefix_of DrLucyPrediction.lower_of
       lookup list_lookup mbind result_bind].
  destruct (Py.is_substring "quantum" (lower s)),
    (Py.is_substring "temporal" (lower s) || Py.is_substring "time" (lower s));
    cbn [mbind result_bind]; by eexists.
Qed.

Lemma any_above_total (threshold : float) (outcomes : list value) :
  Forall (λ o, ∃ q, Py.getitem o "probability" = Ok (VFloat q)) outcomes →
  ∃ found, DrLucyPrediction.any_above threshold outcomes = Ok found.
Proof.
  induction 1 as [|o rest [q Hq] _ [found IH]]; cbn; [by eexists|].
  rewrite Hq. cbn. destruct (threshold <? q)%float; by eexists.
Qed.

Lemma generate_recommendations_total (s c : string) (outcomes : list value) :
  Forall (λ o, ∃ q, Py.getitem o "probability" = Ok (VFloat q)) outcomes →
  ∃ actions,
    DrLucyPrediction._generate_recommendations (VStr s) (VStr c) outcomes = Ok actions.
Proof.
  intros Hall. destruct (any_above_total 0.8 outcomes Hall) as [found Hfound].
  unfold DrLucyPrediction._generate_recommendations. rewrite Hfound.
  cbn [DrLucyPrediction.lower_of mbind result_bind]. by eexists.
Qed.

Lemma plain_text_is_simple (s : string) :
  DrLucyPrediction._assess_complexity (VStr s) (VDict [("scenario", VStr s)]) = "low".
Proof.
  unfold DrLucyPrediction._assess_complexity.
  cbn [DrLucyPrediction.len_of mbind result_bind].
  by destruct (100 <? text_length s)%nat.
Qed.

(** X22. A request that is plain text (a string that is not JSON) is its own
    scenario: the prediction is the regular one, its first outcome is
    "success" with the first draw and quotes the first 50 characters of
    the text, its first memory reference is the session of the current
    second, and its complexity is "low". *)
Theorem plain_text_request_is_the_scenario (w : lucy_world) (s : string) :
  json_loads s = Raise JSONDecodeError →
  ∃ outcomes actions references,
    DrLucyPrediction.predict w (VStr s) = Ok (VDict [
      ("predicted_outcomes", VList (
         VDict [("outcome_type", VStr "success");
                ("probability", VFloat (base_confidence w));
                ("factors", VList [VStr "neural_network_analysis";
                                   VStr "flight_memory_integration"]);
                ("description",
                   VStr ("Successful completion of " +:+ text_prefix 50 s +:+ "..."))]
         :: outcomes));
      ("confidence_scores",
         VList [VFloat (base_confidence w); VFloat (context_relevance w);
                VFloat (temporal_accuracy w); VFloat (risk_assessment w)]);
      ("recommended_actions", VList actions);
      ("memory_references",
         VList (VStr ("flight_mem_" +:+ Py.int_repr (unix_time w)) :: references));
      ("metadata", VDict [
         ("model_version", VStr DrLucyPrediction.model_version);
         ("prediction_method", VStr "enhanced_neural_network");
         ("scenario_complexity", VStr "low");
         ("processing_time_ms", VInt 50);
         ("timestamp", VStr (utcnow w))])]).
Proof.
  intros Hjson.
  destruct (memory_references_head (unix_time w) s "") as [references Hrefs].
  destruct (generate_outcomes_total s (VStr "") (base_confidence w)
              (context_relevance w) (temporal_accuracy w) [risk_assessment w])
    as [outcomes Houtcomes].
  destruct (generate_outcomes_head _ _ _ _ Houtcomes)
    as (p & shown & rest & [= <-] & [= <-] & -> & _ & Hall).
  destruct (generate_recommendations_total s "" _
              (Forall_impl _ _ _ Hall (λ o '(ex_intro _ q (conj Hq _)), ex_intro _ q Hq)))
    as [actions Hactions].
  exists rest, actions, references.
  unfold DrLucyPrediction.predict, DrLucyFlightMemory.normalize_input.
  rewrite Hjson.
  cbn [catch catch_json_decode mbind result_bind Py.get Py.dict_get String.eqb
       Ascii.eqb Bool.eqb DrLucyPrediction.extract_scenario_text
       DrLucyPrediction.prefix_of].
  rewrite Hrefs. cbn [mbind result_bind]. rewrite Houtcomes. cbn [mbind result_bind].
  rewrite Hactions. cbn [mbind result_bind catch map].
  by rewrite plain_text_is_simple.
Qed.

End DrLucyPlainText.
(** ** The further properties at concrete inputs *)

Lemma temporal_coherence_bounds_witness :
  _calculate_temporal_coherence
      (VDict [("prediction", VDict [("confidence", VInt 3)])]) (Sample.prediction 0.7)
    = Ok 0%float ∧
  (0 <=? 0)%float = true ∧ (0 <=? 1)%float = true.
Proof.
  refine (conj eq_refl _).
  exact (temporal_coherence_bounds
           (VDict [("prediction", VDict [("confidence", VInt 3)])])
           (Sample.prediction 0.7) 0%float eq_refl).
Defined.

Lemma sample_failed_compose `{PyRuntime} :
  fst (compose_response Sample.controller (Sample.world_down "t0" 0 1) Sample.request)
    = Ok SampleMore.failed_response.
Proof. reflexivity. Qed.

Lemma sample_failed_run `{PyRuntime} (cache : prediction_cache) :
  cache_lookup Sample.controller 0%Q (request_key Sample.request) cache = None →
  fst (coordinate_predictions Sample.controller (Sample.world_down "t0" 0 1)
         Sample.request cache)
    = Ok (SampleMore.failed_response,
          <[request_key Sample.request := (SampleMore.failed_response, 1%Q)]> cache).
Proof.
  intros Hmiss. rewrite coordinate_predictions_miss by done.
  cbn [fst]. unfold store_or_recover. by rewrite sample_failed_compose.
Qed.

Lemma empty_cache_miss (self : PredictionPipelineController) (now : Q)
    (key : string) :
  cache_lookup self now key ∅ = None.
Proof. unfold cache_lookup. by rewrite lookup_empty. Qed.

Lemma cache_only_grows_witness :
  fst (@coordinate_predictions Sample.runtime Sample.controller
         (Sample.world_down "t0" 0 1) Sample.request ∅)
    = Ok (SampleMore.failed_response,
          <[@request_key Sample.runtime Sample.request
              := (SampleMore.failed_response, 1%Q)]> ∅) ∧
  (size (∅ : prediction_cache)
   ≤ size (<[@request_key Sample.runtime Sample.request
               := (SampleMore.failed_response, 1%Q)]> (∅ : prediction_cache))
   ≤ S (size (∅ : prediction_cache)))%nat.
Proof.
  pose proof (@sample_failed_run Sample.runtime ∅
                (empty_cache_miss Sample.controller 0%Q _)) as Hrun.
  exact (conj Hrun
           (proj2 (proj2 (@cache_only_grows Sample.runtime Sample.controller
                            (Sample.world_down "t0" 0 1) Sample.request ∅ _ _ Hrun)))).
Defined.

Lemma reordered_request_key :
  @request_key Sample.runtime SampleMore.reordered_request
    = @request_key Sample.runtime Sample.request.
Proof. vm_compute. reflexivity. Qed.

Lemma cache_round_trip_witness :
  @request_key Sample.runtime SampleMore.reordered_request
    = @request_key Sample.runtime Sample.request ∧
  (lookup_time (Sample.world_ok "t1" 200 201) - store_time (Sample.world_down "t0" 0 1)
   < inject_Z (cache_ttl Sample.controller))%Q ∧
  ∃ cache',
    fst (@coordinate_predictions Sample.runtime Sample.controller
           (Sample.world_down "t0" 0 1) Sample.request ∅)
      = Ok (SampleMore.failed_response, cache') ∧
    @coordinate_predictions Sample.runtime Sample.controller
        (Sample.world_ok "t1" 200 201) SampleMore.reordered_request cache'
      = (Ok (SampleMore.failed_response, cache'), []).
Proof.
  assert (lookup_time (Sample.world_ok "t1" 200 201)
          - store_time (Sample.world_down "t0" 0 1)
          < inject_Z (cache_ttl Sample.controller))%Q as Hfresh
    by (vm_compute; reflexivity).
  refine (conj reordered_request_key (conj Hfresh _)).
  exact (@cache_round_trip Sample.runtime Sample.controller
           (Sample.world_down "t0" 0 1) (Sample.world_ok "t1" 200 201)
           Sample.request SampleMore.reordered_request ∅ SampleMore.failed_response
           (empty_cache_miss Sample.controller 0%Q _)
           (@sample_failed_compose Sample.runtime)
           reordered_request_key Hfresh).
Defined.

Lemma completed_needs_a_backend_witness :
  (∃ response,
     fst (@compose_response Sample.runtime Sample.controller
            (Sample.world_ok "t0" 0 1) Sample.request) = Ok response ∧
     pipeline_status response = "completed") ∧
  ((∃ url body,
      configured (dr_lucy_endpoint Sample.controller) = Some url ∧
      dr_lucy_reply (Sample.world_ok "t0" 0 1) = Replied 200 (Ok body) ∧
      Py.truthy body = true) ∨
   (∃ url body,
      configured (dream_commander_endpoint Sample.controller) = Some url ∧
      dream_commander_reply (Sample.world_ok "t0" 0 1) = Replied 200 (Ok body) ∧
      Py.truthy body = true)).
Proof.
  split; [eexists; split; reflexivity|].
  exact (@completed_needs_a_backend Sample.runtime Sample.controller
           (Sample.world_ok "t0" 0 1) Sample.request _ eq_refl eq_refl).
Defined.

Lemma ready_endpoint_may_never_be_called_witness :
  dr_lucy_endpoint (SampleMore.with_dr_lucy_endpoint (Some "") Sample.controller)
    = Some "" ∧
  snd (Routes.readiness_check
         (SampleMore.with_dr_lucy_endpoint (Some "") Sample.controller) "t0") = 200%Z ∧
  _call_dr_lucy (SampleMore.with_dr_lucy_endpoint (Some "") Sample.controller)
      Sample.request (dr_lucy_reply (Sample.world_ok "t0" 0 1))
    = (Ok VNone, []).
Proof.
  refine (conj eq_refl _).
  pose proof (@ready_endpoint_may_never_be_called Sample.runtime
                (SampleMore.with_dr_lucy_endpoint (Some "") Sample.controller)
                "t0" (Sample.world_ok "t0" 0 1) Sample.request eq_refl eq_refl)
    as (Hready & Hcall & _).
  exact (conj Hready Hcall).
Defined.

Lemma not_ready_misses_a_prediction_witness :
  snd (Routes.readiness_check
         (SampleMore.with_dr_lucy_endpoint None Sample.controller) "t0") = 503%Z ∧
  ∃ response,
    fst (@compose_response Sample.runtime
           (SampleMore.with_dr_lucy_endpoint None Sample.controller)
           (Sample.world_ok "t0" 0 1) Sample.request) = Ok response ∧
    (time_presser_prediction response = VNone ∨
     time_liner_prediction response = VNone).
Proof.
  refine (conj eq_refl _). eexists. split; [reflexivity|].
  exact (@not_ready_misses_a_prediction Sample.runtime
           (SampleMore.with_dr_lucy_endpoint None Sample.controller)
           "t0" (Sample.world_ok "t0" 0 1) Sample.request _ eq_refl eq_refl).
Defined.

Lemma fenced_reply_is_parsed_witness :
  free_of "`" "Here it is: " = true ∧
  free_of "`" "{}" = true ∧
  fst (@_claude4_analysis Sample.runtime Sample.controller Sample.request
         (Sample.prediction 0.9) (Sample.prediction 0.7)
         (ClaudeText ("Here it is: " +:+ "```json" +:+ "{}" +:+ "```" +:+ " Done.")) "t0")
    = @analysis_of Sample.runtime "{}"
        ("Here it is: " +:+ "```json" +:+ "{}" +:+ "```" +:+ " Done.") "t0".
Proof.
  refine (conj eq_refl (conj eq_refl _)).
  exact (@fenced_reply_is_parsed Sample.runtime Sample.controller Sample.request
           (Sample.prediction 0.9) (Sample.prediction 0.7)
           "Here it is: " "{}" " Done." "t0" eq_refl eq_refl eq_refl eq_refl).
Defined.

Lemma unclosed_fence_drops_last_character_witness :
  free_of "`" "{}" = true ∧
  fst (@_claude4_analysis Sample.runtime Sample.controller Sample.request
         (Sample.prediction 0.9) (Sample.prediction 0.7)
         (ClaudeText ("" +:+ "```json" +:+ "{}")) "t0")
    = @analysis_of Sample.runtime "{" ("" +:+ "```json" +:+ "{}") "t0".
Proof.
  refine (conj eq_refl _).
  exact (@unclosed_fence_drops_last_character Sample.runtime Sample.controller
           Sample.request (Sample.prediction 0.9) (Sample.prediction 0.7)
           "" "{}" "t0" eq_refl eq_refl eq_refl eq_refl).
Defined.

Lemma plain_text_reply_scores_witness :
  Py.is_substring "```json" "all good" = false ∧
  json_loads (PyRuntime := Sample.runtime) "all good" = Raise JSONDecodeError ∧
  ∃ analysis score,
    fst (@_claude4_analysis Sample.runtime Sample.controller Sample.request
           (Sample.prediction 0.9) VNone (ClaudeText "all good") "t0")
      = Ok analysis ∧
    Py.get analysis "analysis_text" VNone = Ok (VStr "all good") ∧
    _calculate_coordination_score (Sample.prediction 0.9) VNone analysis = Ok score ∧
    score = 0.66%float.
Proof.
  refine (conj eq_refl (conj eq_refl _)).
  exact (@plain_text_reply_scores Sample.runtime Sample.controller Sample.request
           (Sample.prediction 0.9) VNone "all good" "t0"
           eq_refl eq_refl eq_refl eq_refl).
Defined.

Lemma recommendations_lead_with_verdict_witness :
  ∃ actions,
    @DrLucyPrediction._generate_recommendations Sample.runtime
      (VStr "Quantum link") (VStr "integration test")
      [VDict [("probability", VFloat 0.9)]] = Ok actions ∧
    ∃ verdict rest,
      actions = VStr verdict :: rest ∧
      (length rest ≤ 6)%nat ∧
      (verdict = "Proceed with high confidence - success probability excellent" ∨
       verdict = "Proceed with caution - monitor key risk factors") ∧
      (verdict = "Proceed with high confidence - success probability excellent" ↔
       Exists (λ o, ∃ v, Py.getitem o "probability" = Ok v ∧
                         Py.gt_float v 0.8 = Ok true)
         [VDict [("probability", VFloat 0.9)]]).
Proof.
  eexists. split; [reflexivity|].
  exact (@recommendations_lead_with_verdict Sample.runtime
           (VStr "Quantum link") (VStr "integration test")
           [VDict [("probability", VFloat 0.9)]] _ eq_refl).
Defined.

Lemma outcomes_use_the_scores_witness :
  ∃ outcomes,
    @DrLucyPrediction._generate_outcomes Sample.runtime
      (VStr "Quantum link") (VStr "") [0.9; 0.7; 0.6; 0.5]%float = Ok outcomes ∧
    ∃ first rest p,
      outcomes = first :: rest ∧
      (length rest ≤ 2)%nat ∧
      [0.9; 0.7; 0.6; 0.5]%float !! 0%nat = Some p ∧
      Py.getitem first "outcome_type" = Ok (VStr "success") ∧
      Py.getitem first "probability" = Ok (VFloat p) ∧
      Forall (λ o, ∃ q, Py.getitem o "probability" = Ok (VFloat q) ∧
                        q ∈ [0.9; 0.7; 0.6; 0.5]%float) outcomes.
Proof.
  eexists. split; [reflexivity|].
  exact (@outcomes_use_the_scores Sample.runtime
           (VStr "Quantum link") (VStr "") [0.9; 0.7; 0.6; 0.5]%float _ eq_refl).
Defined.

Lemma list_is_no_dict (items : list value) (d : list (string * value)) :
  VList items ≠ VDict d.
Proof. discriminate. Qed.

Lemma json_non_object_request_falls_back_witness :
  json_loads (PyRuntime := SampleMore.list_runtime) "[1, 2]"
    = Ok (VList [VInt 1; VInt 2]) ∧
  @DrLucyPrediction.predict SampleMore.list_runtime SampleText.world (VStr "[1, 2]")
    = Ok (@DrLucyPrediction.fallback_prediction SampleMore.list_runtime "t0"
            AttributeError).
Proof.
  refine (conj eq_refl _).
  exact (@json_non_object_request_falls_back SampleMore.list_runtime
           SampleText.world "[1, 2]" (VList [VInt 1; VInt 2])
           eq_refl (list_is_no_dict _)).
Defined.

Lemma time_scenario_gets_no_temporal_action_witness :
  Py.is_substring "time" (lower (PyRuntime := Sample.runtime) "Time travel") = true ∧
  Py.is_substring "temporal" (lower (PyRuntime := Sample.runtime) "Time travel")
    = false ∧
  ∃ outcomes,
    @DrLucyPrediction._generate_outcomes Sample.runtime
        (VStr "Time travel") (VStr "") [0.9; 0.7; 0.6; 0.5]%float
      = Ok outcomes ∧
    Exists (λ o, Py.getitem o "outcome_type" = Ok (VStr "temporal_acceleration"))
      outcomes ∧
    ∃ actions,
      @DrLucyPrediction._generate_recommendations Sample.runtime
          (VStr "Time travel") (VStr "") outcomes
        = Ok actions ∧
      VStr "Activate temporal compression systems gradually" ∉ actions.
Proof.
  refine (conj eq_refl (conj eq_refl _)).
  exact (@time_scenario_gets_no_temporal_action Sample.runtime
           "Time travel" "" 0.9%float 0.7%float 0.6%float [0.5%float] eq_refl eq_refl).
Defined.

Lemma plain_text_request_is_the_scenario_witness :
  json_loads (PyRuntime := Sample.runtime) "land the probe" = Raise JSONDecodeError ∧
  ∃ outcomes actions references,
    @DrLucyPrediction.predict Sample.runtime SampleText.world
        (VStr "land the probe") = Ok (VDict [
      ("predicted_outcomes", VList (
         VDict [("outcome_type", VStr "success");
                ("probability", VFloat (base_confidence SampleText.world));
                ("factors", VList [VStr "neural_network_analysis";
                                   VStr "flight_memory_integration"]);
                ("description",
                   VStr ("Successful completion of "
                         +:+ text_prefix (PyRuntime := Sample.runtime) 50
                               "land the probe" +:+ "..."))]
         :: outcomes));
      ("confidence_scores",
         VList [VFloat (base_confidence SampleText.world);
                VFloat (context_relevance SampleText.world);
                VFloat (temporal_accuracy SampleText.world);
                VFloat (risk_assessment SampleText.world)]);
      ("recommended_actions", VList actions);
      ("memory_references",
         VList (VStr ("flight_mem_" +:+ Py.int_repr (unix_time SampleText.world))
                :: references));
      ("metadata", VDict [
         ("model_version", VStr DrLucyPrediction.model_version);
         ("prediction_method", VStr "enhanced_neural_network");
         ("scenario_complexity", VStr "low");
         ("processing_time_ms", VInt 50);
         ("timestamp", VStr (utcnow SampleText.world))])]).
Proof.
  refine (conj eq_refl _).
  exact (@plain_text_request_is_the_scenario Sample.runtime
           SampleText.world "land the probe" eq_refl).
Defined.
(** ** Properties of the intake of the two routes *)

Section RouteIntake.
Context `{PyRuntime}.

(** X23. Once the body is parsed, the [/predict] route of the Dr Lucy service
    never takes its 500 branch: [predict] never raises, so whatever the
    body the answer is 200 with a document that holds at least one
    predicted outcome and at least one recommended action; and a falsy
    body (null, false, 0, an empty string, list or object) is answered
    as the scenario "general prediction request". *)
Theorem prediction_route_always_answers (w : lucy_world) (request_data : value) :
  ∃ document outcome outcomes action actions,
    predict_route w request_data = (VDict document, 200%Z) ∧
    Py.dict_get document "predicted_outcomes" = Some (VList (outcome :: outcomes)) ∧
    Py.dict_get document "recommended_actions" = Some (VList (action :: actions)) ∧
    (Py.truthy request_data = false →
     DrLucyPrediction.predict w
         (VDict [("scenario", VStr "general prediction request")])
       = Ok (VDict document)).
Proof.
  unfold predict_route.
  destruct (Py.truthy request_data) eqn:Htruthy.
  - rewrite Htruthy. cbn [negb].
    destruct (predict_answers w request_data)
      as (document & outcome & outcomes & action & actions & -> & Ho & Ha).
    by exists document, outcome, outcomes, action, actions.
  - cbn [Py.truthy negb].
    destruct (predict_answers w (VDict [("scenario", VStr "general prediction request")]))
      as (document & outcome & outcomes & action & actions & Hp & Ho & Ha).
    rewrite Hp. by exists document, outcome, outcomes, action, actions.
Qed.

End RouteIntake.

(** X24. The coordinated-prediction route builds a request only from a JSON
    object that holds both [session_id] and [mission_context], and takes
    the two fields from it: a list or a string that passes the membership
    tests of the validation is never accepted. *)
Theorem accepted_request_is_an_object (request_data : value)
    (request : PredictionRequest) :
  coordinated_prediction_request request_data = Ok (Some request) →
  ∃ d,
    request_data = VDict d ∧
    Py.dict_get d "session_id" = Some (session_id request) ∧
    Py.dict_get d "mission_context" = Some (mission_context request).
Proof.
  unfold coordinated_prediction_request. intros Hr.
  destruct (Py.truthy request_data); cbn [negb] in Hr; [|done].
  destruct (Py.contains "session_id" request_data) as [[|]|e] eqn:Hs; try done.
  cbn in Hr.
  destruct (Py.contains "mission_context" request_data) as [[|]|e] eqn:Hm; try done.
  cbn in Hr.
  destruct request_data as [| | | |s|l|d]; try done.
  exists d. split; [done|].
  cbn in Hr.
  destruct (Py.dict_get d "session_id") as [sid|]; [|done].
  destruct (Py.dict_get d "mission_context") as [ctx|]; [|done].
  cbn in Hr. by injection Hr as <-.
Qed.

Lemma accepted_request_is_an_object_witness :
  ∃ request,
    coordinated_prediction_request
      (VDict [("session_id", VStr "s1"); ("mission_context", VDict [])])
      = Ok (Some request) ∧
    ∃ d,
      VDict [("session_id", VStr "s1"); ("mission_context", VDict [])] = VDict d ∧
      Py.dict_get d "session_id" = Some (session_id request) ∧
      Py.dict_get d "mission_context" = Some (mission_context request).
Proof.
  eexists. split; [reflexivity|].
  exact (accepted_request_is_an_object
           (VDict [("session_id", VStr "s1"); ("mission_context", VDict [])]) _ eq_refl).
Defined.

Lemma is_substring_nonempty (k s : string) :
  k ≠ "" → Py.is_substring k s = true → s ≠ "".
Proof.
  intros Hk Hsub ->. unfold Py.is_substring in Hsub.
  destruct k; [done|]. by destruct k.
Qed.

(** X25. A JSON string that merely mentions both field names passes the
    validation (the membership tests are substring tests on it) and then
    fails on the first subscript: it is answered 500, not 400. *)
Theorem text_naming_both_fields_is_a_server_error (s : string) :
  Py.is_substring "session_id" s = true →
  Py.is_substring "mission_context" s = true →
  coordinated_prediction_request (VStr s) = Raise TypeError.
Proof.
  intros Hs Hm. unfold coordinated_prediction_request.
  assert (s ≠ "") as Hne by (by eapply is_substring_nonempty; [|exact Hs]).
  cbn [Py.truthy Py.contains].
  destruct (String.eqb_spec s ""); [done|].
  cbn [negb]. cbn. by rewrite Hs, Hm.
Qed.

Lemma text_naming_both_fields_is_a_server_error_witness :
  Py.is_substring "session_id" "no session_id and no mission_context" = true ∧
  Py.is_substring "mission_context" "no session_id and no mission_context" = true ∧
  coordinated_prediction_request (VStr "no session_id and no mission_context")
    = Raise TypeError.
Proof.
  refine (conj eq_refl (conj eq_refl _)).
  exact (text_naming_both_fields_is_a_server_error
           "no session_id and no mission_context" eq_refl eq_refl).
Defined.
